(** * LTC2983Manager: a shallow embedding of the driver class and its properties

    The development follows [LTC2983Manager.h] and [LTC2983Manager.cpp].
    The object is a record of its data members, its methods are actions of a
    small state-and-trace monad, and every call that leaves the class (the
    support functions of [LTC2983_support_functions.h], the Arduino pin and
    serial functions) is recorded, with its arguments, in a trace.  Values
    returned by the support functions come from a [Device], which answers as
    a function of the calls made so far. *)

From Stdlib Require Import ZArith Floats.SpecFloat.
From stdpp Require Import base tactics option list list_numbers strings.

Local Open Scope Z_scope.

(** ** Scalars *)

(** [float] is IEEE binary32; [SpecFloat] is its inductive description. *)
Definition float : Type := spec_float.

(** [#define TEMPERATURE_ERROR -300.0f] and its two siblings. *)
Definition TEMPERATURE_ERROR : float :=
  Eval cbv in binary_normalize 24 128 (-300) 0 false.
Definition LTC_POWERED_OFF : float :=
  Eval cbv in binary_normalize 24 128 (-888) 0 false.
Definition LTC_SENSOR_ERROR : float :=
  Eval cbv in binary_normalize 24 128 (-999) 0 false.

(** Conversion of an [int] to [uint8_t] and of an integer to [uint32_t]. *)
Definition to_uint8 (z : Z) : Z := z mod 256.
Definition to_uint32 (z : Z) : Z := z mod 2 ^ 32.

(** [enum Sensor_Type_t].  The switch of [Configure] has a [default] branch,
    so the members of [channel_assignments] are kept as the integers the
    enumerators stand for, and any other integer is an unknown assignment. *)
Definition Sensor_Type_t : Type := Z.
Definition UNUSED_CHANNEL : Sensor_Type_t := 0.
Definition SENSE_RESISTOR_1000 : Sensor_Type_t := 1.
Definition THERMISTOR_44006 : Sensor_Type_t := 2.
Definition RTD_PT_100 : Sensor_Type_t := 3.

(** ** The constants of [LTC2983_configuration_constants.h]

    The header is included by [LTC2983Manager.h] but is not part of the
    sources at hand, so the driver is parameterised by the constants it takes
    from it.  Each is the value of the macro as a [uint32_t] (or smaller)
    number. *)
Class LTC2983_configuration_constants := {
  WRITE_TO_RAM : Z;
  READ_FROM_RAM : Z;
  COMMAND_STATUS_REGISTER : Z;
  SLEEP_BYTE : Z;
  CONVERSION_CONTROL_BYTE : Z;
  TEMP_UNIT__C : Z;
  REJECTION__50_60_HZ : Z;
  TEMPERATURE : Z;
  SENSOR_TYPE__SENSE_RESISTOR : Z;
  SENSE_RESISTOR_1K : Z;
  SENSOR_TYPE__THERMISTOR_44006_10K_25C : Z;
  THERMISTOR_RSENSE_CHANNEL_LSB : Z;
  THERMISTOR_DIFFERENTIAL : Z;
  THERMISTOR_EXCITATION_MODE__SHARING_NO_ROTATION : Z;
  THERMISTOR_EXCITATION_CURRENT__AUTORANGE : Z;
  SENSOR_TYPE__RTD_PT_100 : Z;
  RTD_RSENSE_CHANNEL_LSB : Z;
  RTD_NUM_WIRES__2_WIRE : Z;
  RTD_EXCITATION_MODE__NO_ROTATION_SHARING : Z;
  RTD_EXCITATION_CURRENT__50UA : Z;
  RTD_STANDARD__AMERICAN : Z
}.

(** ** Calls that leave the class *)

Inductive PinMode := OUTPUT.
Inductive Level := LOW | HIGH.

Inductive Call :=
  | pinMode (pin : Z) (mode : PinMode)
  | digitalWrite (pin : Z) (level : Level)
  | delay (ms : Z)
  | SPI_begin (port : Z)
  | SPI_setClockDivider (port : Z)
  | Serial_println (msg : string)
  | setSpiSup (spi_port : Z)
  | transfer_byte (chip_select read_or_write start_address input_data : Z)
  | assign_channel (chip_select : Z) (channel_number : nat)
                   (channel_assignment_data : Z)
  | measure_channel (chip_select : Z) (channel_number : nat)
                    (channel_output : Z)
  | get_result (chip_select : Z) (channel_number : nat) (channel_output : Z).

#[global] Instance Level_eq_dec : EqDecision Level.
Proof. solve_decision. Defined.
#[global] Instance PinMode_eq_dec : EqDecision PinMode.
Proof. solve_decision. Defined.
#[global] Instance Call_eq_dec : EqDecision Call.
Proof. solve_decision. Defined.

(** What the chip and the support functions hand back.  Each answer is a
    function of the trace up to and including the call being answered.
    [measure_channel] blocks until the chip reports completion: [None] is
    the case in which it never returns. *)
Record Device := {
  transfer_byte_reply : list Call → Z;
  measure_channel_reply : list Call → option float;
  get_result_reply : list Call → float
}.

(** ** The object *)

Record LTC2983Manager := mkLTC2983Manager {
  channel_assignments : list Sensor_Type_t;
  channel_temperatures : list float;
  _rtd_sense_channel : nat;
  _therm_sense_channel : nat;
  _spi : Z;
  _chip_select_pin : Z;
  _reset_pin : Z;
  _sleeping : bool;
  _measurement_finished : bool
}.

(** Both tables are declared with 21 elements. *)
Definition TABLE_SIZE : nat := 21.

Definition well_sized (self : LTC2983Manager) : Prop :=
  length (channel_assignments self) = TABLE_SIZE ∧
  length (channel_temperatures self) = TABLE_SIZE.

#[global] Instance well_sized_dec self : Decision (well_sized self).
Proof. unfold well_sized. apply _. Defined.

Definition set_channel_assignments (v : list Sensor_Type_t)
    (self : LTC2983Manager) : LTC2983Manager :=
  mkLTC2983Manager v (channel_temperatures self) (_rtd_sense_channel self)
    (_therm_sense_channel self) (_spi self) (_chip_select_pin self)
    (_reset_pin self) (_sleeping self) (_measurement_finished self).

Definition set_channel_temperatures (v : list float)
    (self : LTC2983Manager) : LTC2983Manager :=
  mkLTC2983Manager (channel_assignments self) v (_rtd_sense_channel self)
    (_therm_sense_channel self) (_spi self) (_chip_select_pin self)
    (_reset_pin self) (_sleeping self) (_measurement_finished self).

Definition set_rtd_sense_channel (v : nat)
    (self : LTC2983Manager) : LTC2983Manager :=
  mkLTC2983Manager (channel_assignments self) (channel_temperatures self) v
    (_therm_sense_channel self) (_spi self) (_chip_select_pin self)
    (_reset_pin self) (_sleeping self) (_measurement_finished self).

Definition set_therm_sense_channel (v : nat)
    (self : LTC2983Manager) : LTC2983Manager :=
  mkLTC2983Manager (channel_assignments self) (channel_temperatures self)
    (_rtd_sense_channel self) v (_spi self) (_chip_select_pin self)
    (_reset_pin self) (_sleeping self) (_measurement_finished self).

Definition set_spi (v : Z) (self : LTC2983Manager) : LTC2983Manager :=
  mkLTC2983Manager (channel_assignments self) (channel_temperatures self)
    (_rtd_sense_channel self) (_therm_sense_channel self) v
    (_chip_select_pin self) (_reset_pin self) (_sleeping self)
    (_measurement_finished self).

Definition set_chip_select_pin (v : Z)
    (self : LTC2983Manager) : LTC2983Manager :=
  mkLTC2983Manager (channel_assignments self) (channel_temperatures self)
    (_rtd_sense_channel self) (_therm_sense_channel self) (_spi self) v
    (_reset_pin self) (_sleeping self) (_measurement_finished self).

Definition set_reset_pin (v : Z) (self : LTC2983Manager) : LTC2983Manager :=
  mkLTC2983Manager (channel_assignments self) (channel_temperatures self)
    (_rtd_sense_channel self) (_therm_sense_channel self) (_spi self)
    (_chip_select_pin self) v (_sleeping self) (_measurement_finished self).

Definition set_sleeping (v : bool) (self : LTC2983Manager) : LTC2983Manager :=
  mkLTC2983Manager (channel_assignments self) (channel_temperatures self)
    (_rtd_sense_channel self) (_therm_sense_channel self) (_spi self)
    (_chip_select_pin self) (_reset_pin self) v (_measurement_finished self).

Definition set_measurement_finished (v : bool)
    (self : LTC2983Manager) : LTC2983Manager :=
  mkLTC2983Manager (channel_assignments self) (channel_temperatures self)
    (_rtd_sense_channel self) (_therm_sense_channel self) (_spi self)
    (_chip_select_pin self) (_reset_pin self) (_sleeping self) v.

(** ** The monad of methods *)

(** A method runs on the object and the trace so far.  It returns a value
    with the new object and trace ([Done]); or indexes a table outside its
    21 elements ([Fault], undefined behaviour, with the trace up to there);
    or is stuck in a support function that never returns ([Hang]); or the
    model's call depth is used up ([OutOfFuel]). *)
Inductive Result (A : Type) :=
  | Done (a : A) (self : LTC2983Manager) (tr : list Call)
  | Fault (tr : list Call)
  | Hang (self : LTC2983Manager) (tr : list Call)
  | OutOfFuel.
Arguments Done {A} a self tr.
Arguments Fault {A} tr.
Arguments Hang {A} self tr.
Arguments OutOfFuel {A}.

Definition M (A : Type) : Type := LTC2983Manager → list Call → Result A.

#[global] Instance M_ret : MRet M := λ A a self tr, Done a self tr.
#[global] Instance M_bind : MBind M := λ A B f m self tr,
  match m self tr with
  | Done a self' tr' => f a self' tr'
  | Fault tr' => Fault tr'
  | Hang self' tr' => Hang self' tr'
  | OutOfFuel => OutOfFuel
  end.

Definition gets {A} (f : LTC2983Manager → A) : M A :=
  λ self tr, Done (f self) self tr.
Definition modify (f : LTC2983Manager → LTC2983Manager) : M unit :=
  λ self tr, Done tt (f self) tr.
Definition call (c : Call) : M unit :=
  λ self tr, Done tt self (tr ++ [c]).
Definition out_of_fuel {A} : M A := λ _ _, OutOfFuel.

(** [if (cond) action;] *)
Definition when (cond : bool) (action : M unit) : M unit :=
  if cond then action else mret tt.

(** [for (channel = ...; ...; channel++) body] over the listed channels. *)
Fixpoint for_each (channels : list nat) (body : nat → M unit) : M unit :=
  match channels with
  | [] => mret tt
  | channel :: rest => body channel;; for_each rest body
  end.

(** Table accesses; an index outside the table is a [Fault]. *)
Definition read_assignment (i : nat) : M Sensor_Type_t :=
  λ self tr,
    match channel_assignments self !! i with
    | Some v => Done v self tr
    | None => Fault tr
    end.

Definition write_assignment (i : nat) (v : Sensor_Type_t) : M unit :=
  λ self tr,
    if decide (i < length (channel_assignments self))%nat
    then Done tt (set_channel_assignments
                    (<[i := v]> (channel_assignments self)) self) tr
    else Fault tr.

Definition write_temperature (i : nat) (v : float) : M unit :=
  λ self tr,
    if decide (i < length (channel_temperatures self))%nat
    then Done tt (set_channel_temperatures
                    (<[i := v]> (channel_temperatures self)) self) tr
    else Fault tr.

(** ** The constructor

    [LTC2983Manager(cs_pin, rst_pin, therm_sense_ch, rtd_sense_ch)] runs on
    the storage of the new object, whose members hold arbitrary values. *)
Definition LTC2983Manager_constructor (cs_pin rst_pin : Z)
    (therm_sense_ch rtd_sense_ch : nat) : M unit :=
  modify (set_chip_select_pin cs_pin);;
  modify (set_reset_pin rst_pin);;
  modify (set_sleeping false);;
  modify (set_measurement_finished false);;
  modify (set_spi 0);;
  spi ← gets _spi;
  call (setSpiSup (to_uint8 spi));;
  for_each (seq 0 21) (λ channel,
    write_assignment channel UNUSED_CHANNEL;;
    write_temperature channel TEMPERATURE_ERROR);;
  (if decide (0 < therm_sense_ch ∧ therm_sense_ch < 21)%nat then
     modify (set_therm_sense_channel therm_sense_ch);;
     ch ← gets _therm_sense_channel;
     write_assignment ch SENSE_RESISTOR_1000
   else
     modify (set_therm_sense_channel 0%nat));;
  (if decide (0 < rtd_sense_ch ∧ rtd_sense_ch < 21)%nat then
     modify (set_rtd_sense_channel rtd_sense_ch);;
     ch ← gets _rtd_sense_channel;
     write_assignment ch SENSE_RESISTOR_1000
   else
     modify (set_rtd_sense_channel 0%nat)).

(** [void InterruptHandler(void)] *)
Definition InterruptHandler : M unit :=
  modify (set_measurement_finished true).

(** ** The methods that talk to the chip *)

Section Driver.

Context {K : LTC2983_configuration_constants}.
Variable dev : Device.

(** Calls of the support functions, with the conversions of their
    prototypes ([uint8_t chip_select], [uint8_t read_or_write],
    [uint16_t start_address], [uint8_t input_data]).  The data word of
    [assign_channel] is a [uint32_t] variable at every call site and is
    passed as it is. *)
Definition do_transfer_byte (chip_select read_or_write start_address
    input_data : Z) : M Z :=
  λ self tr,
    let tr' := tr ++ [transfer_byte (to_uint8 chip_select)
                        (to_uint8 read_or_write) (start_address mod 2 ^ 16)
                        (to_uint8 input_data)] in
    Done (to_uint8 (transfer_byte_reply dev tr')) self tr'.

Definition do_assign_channel (chip_select : Z) (channel_number : nat)
    (channel_assignment_data : Z) : M unit :=
  call (assign_channel (to_uint8 chip_select) channel_number
          channel_assignment_data).

Definition do_measure_channel (chip_select : Z) (channel_number : nat)
    (channel_output : Z) : M float :=
  λ self tr,
    let tr' := tr ++ [measure_channel (to_uint8 chip_select) channel_number
                        (to_uint8 channel_output)] in
    match measure_channel_reply dev tr' with
    | Some temp => Done temp self tr'
    | None => Hang self tr'
    end.

Definition do_get_result (chip_select : Z) (channel_number : nat)
    (channel_output : Z) : M float :=
  λ self tr,
    let tr' := tr ++ [get_result (to_uint8 chip_select) channel_number
                        (to_uint8 channel_output)] in
    Done (get_result_reply dev tr') self tr'.

(** The words of the three encoders.  [|] is [Z.lor], [<<] is [Z.shiftl];
    the sense channel is a [uint8_t] promoted to a 32-bit [int] before the
    shift, and the whole expression is stored in a [uint32_t]. *)
Definition sense_resistor_data : Z :=
  to_uint32 (Z.lor SENSOR_TYPE__SENSE_RESISTOR SENSE_RESISTOR_1K).

Definition thermistor_data (self : LTC2983Manager) : Z :=
  to_uint32
    (Z.lor (Z.lor (Z.lor (Z.lor
       SENSOR_TYPE__THERMISTOR_44006_10K_25C
       (Z.shiftl (Z.of_nat (_therm_sense_channel self))
                 THERMISTOR_RSENSE_CHANNEL_LSB))
       THERMISTOR_DIFFERENTIAL)
       THERMISTOR_EXCITATION_MODE__SHARING_NO_ROTATION)
       THERMISTOR_EXCITATION_CURRENT__AUTORANGE).

Definition rtd_data (self : LTC2983Manager) : Z :=
  to_uint32
    (Z.lor (Z.lor (Z.lor (Z.lor (Z.lor
       SENSOR_TYPE__RTD_PT_100
       (Z.shiftl (Z.of_nat (_rtd_sense_channel self)) RTD_RSENSE_CHANNEL_LSB))
       RTD_NUM_WIRES__2_WIRE)
       RTD_EXCITATION_MODE__NO_ROTATION_SHARING)
       RTD_EXCITATION_CURRENT__50UA)
       RTD_STANDARD__AMERICAN).

(** [void AssignSenseResistor(uint8_t channel_number)] *)
Definition AssignSenseResistor (channel_number : nat) : M unit :=
  let channel_assignment_data := sense_resistor_data in
  cs ← gets _chip_select_pin;
  do_assign_channel cs channel_number channel_assignment_data.

(** [void AssignThermistor(uint8_t channel_number)] *)
Definition AssignThermistor (channel_number : nat) : M unit :=
  channel_assignment_data ← gets thermistor_data;
  cs ← gets _chip_select_pin;
  do_assign_channel cs channel_number channel_assignment_data.

(** [void AssignRTD(uint8_t channel_number)] *)
Definition AssignRTD (channel_number : nat) : M unit :=
  channel_assignment_data ← gets rtd_data;
  cs ← gets _chip_select_pin;
  do_assign_channel cs channel_number channel_assignment_data.

Definition unknown_assignment_message : string :=
  "LTC2983Manager error: unknown channel assignment".

(** The body of the loop of [Configure]: the switch on the assignment. *)
Definition configure_channel (channel : nat) : M unit :=
  assignment ← read_assignment channel;
  if decide (assignment = UNUSED_CHANNEL) then mret tt
  else if decide (assignment = SENSE_RESISTOR_1000) then
    AssignSenseResistor channel
  else if decide (assignment = THERMISTOR_44006) then
    AssignThermistor channel
  else if decide (assignment = RTD_PT_100) then
    AssignRTD channel
  else call (Serial_println unknown_assignment_message).

(** [void Configure(void)] and [void WakeUp(void)] call each other; [fuel]
    bounds the depth of these calls. *)
Fixpoint Configure (fuel : nat) : M unit :=
  match fuel with
  | O => out_of_fuel
  | S fuel' =>
      sleeping ← gets _sleeping;
      when sleeping (WakeUp fuel');;
      cs ← gets _chip_select_pin;
      do_transfer_byte cs WRITE_TO_RAM 0xF0
        (Z.lor TEMP_UNIT__C REJECTION__50_60_HZ);;
      cs ← gets _chip_select_pin;
      do_transfer_byte cs WRITE_TO_RAM 0xFF 0;;
      for_each (seq 1 20) configure_channel
  end
with WakeUp (fuel : nat) : M unit :=
  match fuel with
  | O => out_of_fuel
  | S fuel' =>
      rst ← gets _reset_pin;
      call (digitalWrite rst LOW);;
      call (delay 100);;
      rst ← gets _reset_pin;
      call (digitalWrite rst HIGH);;
      call (delay 200);;
      modify (set_sleeping false);;
      Configure fuel'
  end.

(** [void InitializeAndConfigure(void)] *)
Definition InitializeAndConfigure (fuel : nat) : M unit :=
  cs ← gets _chip_select_pin;
  call (pinMode cs OUTPUT);;
  rst ← gets _reset_pin;
  call (pinMode rst OUTPUT);;
  call (digitalWrite rst HIGH);;
  call (delay 100);;
  spi ← gets _spi;
  (if decide (spi = 0) then call (SPI_begin 0);; call (SPI_setClockDivider 0)
   else if decide (spi = 1) then
     call (SPI_begin 1);; call (SPI_setClockDivider 1)
   else if decide (spi = 2) then
     call (SPI_begin 2);; call (SPI_setClockDivider 2)
   else mret tt);;
  call (delay 100);;
  Configure fuel.

(** [void Sleep(void)] *)
Definition Sleep : M unit :=
  cs ← gets _chip_select_pin;
  do_transfer_byte cs WRITE_TO_RAM COMMAND_STATUS_REGISTER SLEEP_BYTE;;
  modify (set_sleeping true).

(** [uint8_t CheckStatusReg(void)] *)
Definition CheckStatusReg : M Z :=
  cs ← gets _chip_select_pin;
  do_transfer_byte cs READ_FROM_RAM 0x0000 0.

(** [float MeasureChannel(uint8_t channel_number)] *)
Definition MeasureChannel (fuel : nat) (channel_number : nat) : M float :=
  sleeping ← gets _sleeping;
  when sleeping (WakeUp fuel);;
  assignment ← read_assignment channel_number;
  temp ← (if decide (assignment = THERMISTOR_44006 ∨ assignment = RTD_PT_100)
          then cs ← gets _chip_select_pin;
               do_measure_channel cs channel_number TEMPERATURE
          else mret TEMPERATURE_ERROR);
  write_temperature channel_number temp;;
  mret temp.

(** [void MeasureAllChannels(void)] *)
Definition MeasureAllChannels (fuel : nat) : M unit :=
  for_each (seq 1 20) (λ channel, MeasureChannel fuel channel;; mret tt).

(** [void StartMeasurement(uint8_t channel_number)] *)
Definition StartMeasurement (channel_number : nat) : M unit :=
  modify (set_measurement_finished false);;
  cs ← gets _chip_select_pin;
  do_transfer_byte cs WRITE_TO_RAM COMMAND_STATUS_REGISTER
    (Z.lor CONVERSION_CONTROL_BYTE (Z.of_nat channel_number));;
  mret tt.

(** [bool FinishedMeasurement(void)]: bit 6 of the status byte. *)
Definition FinishedMeasurement : M bool :=
  cs ← gets _chip_select_pin;
  status_byte ← do_transfer_byte cs READ_FROM_RAM COMMAND_STATUS_REGISTER 0;
  mret (bool_decide (Z.land status_byte 0x40 ≠ 0)).

(** [float ReadMeasurementResult(uint8_t channel_number)] *)
Definition ReadMeasurementResult (channel_number : nat) : M float :=
  modify (set_measurement_finished false);;
  finished ← FinishedMeasurement;
  if negb finished then mret TEMPERATURE_ERROR
  else cs ← gets _chip_select_pin;
       do_get_result cs channel_number TEMPERATURE.

(** ** The calls of a configuration, as lists

    These describe, without the monad, what [Configure] and [WakeUp] add to
    the trace; the theorems below relate the methods to them. *)

Definition device_wide_writes (self : LTC2983Manager) : list Call :=
  [ transfer_byte (to_uint8 (_chip_select_pin self)) (to_uint8 WRITE_TO_RAM)
      (0xF0 mod 2 ^ 16) (to_uint8 (Z.lor TEMP_UNIT__C REJECTION__50_60_HZ));
    transfer_byte (to_uint8 (_chip_select_pin self)) (to_uint8 WRITE_TO_RAM)
      (0xFF mod 2 ^ 16) (to_uint8 0) ].

Definition channel_calls (self : LTC2983Manager) (channel : nat)
    : list Call :=
  match channel_assignments self !! channel with
  | None => []
  | Some assignment =>
      let cs := to_uint8 (_chip_select_pin self) in
      if decide (assignment = UNUSED_CHANNEL) then []
      else if decide (assignment = SENSE_RESISTOR_1000) then
        [assign_channel cs channel sense_resistor_data]
      else if decide (assignment = THERMISTOR_44006) then
        [assign_channel cs channel (thermistor_data self)]
      else if decide (assignment = RTD_PT_100) then
        [assign_channel cs channel (rtd_data self)]
      else [Serial_println unknown_assignment_message]
  end.

Definition configuration_calls (self : LTC2983Manager) : list Call :=
  device_wide_writes self ++ flat_map (channel_calls self) (seq 1 20).

Definition reset_pulse (self : LTC2983Manager) : list Call :=
  [ digitalWrite (_reset_pin self) LOW; delay 100;
    digitalWrite (_reset_pin self) HIGH; delay 200 ].

(** What an implicit wake-up adds: nothing when the driver is awake. *)
Definition wake_calls (self : LTC2983Manager) : list Call :=
  if _sleeping self then reset_pulse self ++ configuration_calls self
  else [].

(** The status read of [FinishedMeasurement] and the byte it is answered
    with when issued after the trace [tr]. *)
Definition status_read (self : LTC2983Manager) : Call :=
  transfer_byte (to_uint8 (_chip_select_pin self)) (to_uint8 READ_FROM_RAM)
    (COMMAND_STATUS_REGISTER mod 2 ^ 16) (to_uint8 0).

Definition status_reply (self : LTC2983Manager) (tr : list Call) : Z :=
  to_uint8 (transfer_byte_reply dev (tr ++ [status_read self])).

(** The call of the blocking helper made by [MeasureChannel]. *)
Definition measure_call (self : LTC2983Manager) (channel_number : nat)
    : Call :=
  measure_channel (to_uint8 (_chip_select_pin self)) channel_number
    (to_uint8 TEMPERATURE).

(** Layout conditions on the absent constants: each is a [uint32_t] value
    and leaves the five bits of the sense-channel field, which starts at
    bit [lsb], clear. *)
Definition leaves_field_clear (lsb : Z) (constant : Z) : Prop :=
  0 ≤ constant < 2 ^ 32 ∧ Z.land (Z.shiftr constant lsb) 31 = 0.

Definition thermistor_layout : Prop :=
  0 ≤ THERMISTOR_RSENSE_CHANNEL_LSB ∧
  THERMISTOR_RSENSE_CHANNEL_LSB + 5 ≤ 32 ∧
  Forall (leaves_field_clear THERMISTOR_RSENSE_CHANNEL_LSB)
    [ SENSOR_TYPE__THERMISTOR_44006_10K_25C; THERMISTOR_DIFFERENTIAL;
      THERMISTOR_EXCITATION_MODE__SHARING_NO_ROTATION;
      THERMISTOR_EXCITATION_CURRENT__AUTORANGE ].

Definition rtd_layout : Prop :=
  0 ≤ RTD_RSENSE_CHANNEL_LSB ∧
  RTD_RSENSE_CHANNEL_LSB + 5 ≤ 32 ∧
  Forall (leaves_field_clear RTD_RSENSE_CHANNEL_LSB)
    [ SENSOR_TYPE__RTD_PT_100; RTD_NUM_WIRES__2_WIRE;
      RTD_EXCITATION_MODE__NO_ROTATION_SHARING;
      RTD_EXCITATION_CURRENT__50UA; RTD_STANDARD__AMERICAN ].

End Driver.

(** Calls that are transactions on the serial bus. *)
Definition is_bus_transaction (c : Call) : bool :=
  match c with
  | transfer_byte _ _ _ _ | assign_channel _ _ _
  | measure_channel _ _ _ | get_result _ _ _ => true
  | _ => false
  end.

(** ** Sample data

    The bit layout of the LTC2983 data sheet, as an instance of the absent
    header, and the board of the scenario of the specification: sense
    resistor on channel 5, thermistor on channel 7. *)
Definition LTC2983_datasheet : LTC2983_configuration_constants := {|
  WRITE_TO_RAM := 0x02;
  READ_FROM_RAM := 0x03;
  COMMAND_STATUS_REGISTER := 0x0000;
  SLEEP_BYTE := 0x97;
  CONVERSION_CONTROL_BYTE := 0x80;
  TEMP_UNIT__C := 0x00;
  REJECTION__50_60_HZ := 0x00;
  TEMPERATURE := 0x01;
  SENSOR_TYPE__SENSE_RESISTOR := Z.shiftl 0x1D 27;
  SENSE_RESISTOR_1K := 0xFA000;
  SENSOR_TYPE__THERMISTOR_44006_10K_25C := Z.shiftl 0x16 27;
  THERMISTOR_RSENSE_CHANNEL_LSB := 22;
  THERMISTOR_DIFFERENTIAL := Z.shiftl 0x0 21;
  THERMISTOR_EXCITATION_MODE__SHARING_NO_ROTATION := Z.shiftl 0x2 19;
  THERMISTOR_EXCITATION_CURRENT__AUTORANGE := Z.shiftl 0xC 15;
  SENSOR_TYPE__RTD_PT_100 := Z.shiftl 0xC 27;
  RTD_RSENSE_CHANNEL_LSB := 22;
  RTD_NUM_WIRES__2_WIRE := Z.shiftl 0x0 20;
  RTD_EXCITATION_MODE__NO_ROTATION_SHARING := Z.shiftl 0x1 18;
  RTD_EXCITATION_CURRENT__50UA := Z.shiftl 0x4 14;
  RTD_STANDARD__AMERICAN := Z.shiftl 0x1 12
|}.

(** Storage before the constructor runs: the members hold whatever was
    there. *)
Definition raw_storage : LTC2983Manager :=
  mkLTC2983Manager (replicate 21 7) (replicate 21 (S754_zero false))
    9 9 5 77 78 true true.

(** A chip that never reports completion and one that always does. *)
Definition busy_device : Device := {|
  transfer_byte_reply := λ _, 0x00;
  measure_channel_reply := λ _, None;
  get_result_reply := λ _, LTC_SENSOR_ERROR
|}.

Definition sample_temperature : float :=
  Eval cbv in binary_normalize 24 128 25 0 false.

Definition ready_device : Device := {|
  transfer_byte_reply := λ _, 0x40;
  measure_channel_reply := λ _, Some sample_temperature;
  get_result_reply := λ _, sample_temperature
|}.

(** The object built by [LTC2983Manager(10, 9, 5, 0)], then
    [channel_assignments[7] = THERMISTOR_44006]. *)
Definition board : LTC2983Manager :=
  mkLTC2983Manager
    (<[7%nat := THERMISTOR_44006]>
       (<[5%nat := SENSE_RESISTOR_1000]> (replicate 21 UNUSED_CHANNEL)))
    (replicate 21 TEMPERATURE_ERROR) 0 5 0 10 9 false false.

(** A board with both sense resistors: [LTC2983Manager(10, 9, 5, 6)], a
    thermistor on channel 7 and an RTD on channel 8. *)
Definition rtd_board : LTC2983Manager :=
  mkLTC2983Manager
    (<[8%nat := RTD_PT_100]>
       (<[7%nat := THERMISTOR_44006]>
          (<[6%nat := SENSE_RESISTOR_1000]>
             (<[5%nat := SENSE_RESISTOR_1000]>
                (replicate 21 UNUSED_CHANNEL)))))
    (replicate 21 TEMPERATURE_ERROR) 6 5 0 10 9 false false.

(** The first board after [Sleep()], and with an assignment outside the
    enumeration on channel 3. *)
Definition asleep_board : LTC2983Manager := set_sleeping true board.

Definition miswired_board : LTC2983Manager :=
  set_channel_assignments (<[3%nat := 9]> (channel_assignments board)) board.

(** ** Ten public methods as one interface

    A caller drives the object through its public methods.  [Method] names
    the ten of them that are modelled above: [InitializeAndConfigure],
    [Sleep], [WakeUp], [CheckStatusReg], [MeasureAllChannels],
    [MeasureChannel], [StartMeasurement], [FinishedMeasurement],
    [ReadMeasurementResult] and [InterruptHandler].  The two other public
    methods defined in the source, [ReadFullChannelData] and [connect], are
    not modelled and are not part of [Method]; nothing stated over [Method]
    speaks about them.  [invoke] runs one method and [invoke_all] runs a
    sequence, collecting the returned values. *)

Inductive Method :=
  | call_InitializeAndConfigure
  | call_Sleep
  | call_WakeUp
  | call_CheckStatusReg
  | call_MeasureAllChannels
  | call_MeasureChannel (channel_number : nat)
  | call_StartMeasurement (channel_number : nat)
  | call_FinishedMeasurement
  | call_ReadMeasurementResult (channel_number : nat)
  | call_InterruptHandler.

Inductive Value :=
  | no_value
  | byte_value (z : Z)
  | bool_value (b : bool)
  | float_value (f : float).

(** The methods of the non-blocking group, with the two that only read or
    set a flag. *)
Definition non_blocking (m : Method) : bool :=
  match m with
  | call_CheckStatusReg | call_StartMeasurement _ | call_FinishedMeasurement
  | call_ReadMeasurementResult _ | call_InterruptHandler => true
  | _ => false
  end.

(** The only method that indexes the tables with its argument. *)
Definition channel_in_table (m : Method) : Prop :=
  match m with
  | call_MeasureChannel channel_number => (channel_number ≤ 20)%nat
  | _ => True
  end.

(** Calls by kind. *)
Definition is_measure_call (c : Call) : bool :=
  match c with measure_channel _ _ _ => true | _ => false end.

Definition is_register_access (c : Call) : bool :=
  match c with
  | transfer_byte _ _ _ _ | get_result _ _ _ => true
  | _ => false
  end.

(** The members no method assigns: the assignment table, the sense
    channels, the port and the pins; and the size of the result table. *)
Definition same_wiring (self self' : LTC2983Manager) : Prop :=
  channel_assignments self' = channel_assignments self
  ∧ _rtd_sense_channel self' = _rtd_sense_channel self
  ∧ _therm_sense_channel self' = _therm_sense_channel self
  ∧ _spi self' = _spi self
  ∧ _chip_select_pin self' = _chip_select_pin self
  ∧ _reset_pin self' = _reset_pin self
  ∧ length (channel_temperatures self') = length (channel_temperatures self).

(** A channel that [MeasureChannel] hands to the blocking helper. *)
Definition measures_temperature (self : LTC2983Manager) (channel : nat)
    : Prop :=
  channel_assignments self !! channel = Some THERMISTOR_44006
  ∨ channel_assignments self !! channel = Some RTD_PT_100.

#[global] Instance measures_temperature_dec self channel :
  Decision (measures_temperature self channel).
Proof. unfold measures_temperature. apply _. Defined.

(** An outcome that is no fault, keeps the wiring of the object it started
    from and only extends the trace. *)
Definition outcome_keeps_wiring {A} (self : LTC2983Manager)
    (tr : list Call) (r : Result A) : Prop :=
  match r with
  | Done _ self' tr' | Hang self' tr' =>
      same_wiring self self' ∧ tr `prefix_of` tr'
  | Fault _ | OutOfFuel => False
  end.

(** An outcome with [_measurement_finished] blanked out. *)
Definition forget_flag {A} (r : Result A) : Result A :=
  match r with
  | Done a self tr => Done a (set_measurement_finished false self) tr
  | Hang self tr => Hang (set_measurement_finished false self) tr
  | Fault tr => Fault tr
  | OutOfFuel => OutOfFuel
  end.

(** An action whose outcome, the flag apart, is the same on two objects
    that differ in the flag only. *)
Definition flag_blind {A} (m : M A) : Prop :=
  ∀ self1 self2 tr,
    set_measurement_finished false self1
    = set_measurement_finished false self2 →
    forget_flag (m self1 tr) = forget_flag (m self2 tr).

Section Interface.

Context {K : LTC2983_configuration_constants}.
Variable dev : Device.

Definition invoke (fuel : nat) (m : Method) : M Value :=
  match m with
  | call_InitializeAndConfigure =>
      InitializeAndConfigure dev fuel;; mret no_value
  | call_Sleep => Sleep dev;; mret no_value
  | call_WakeUp => WakeUp dev fuel;; mret no_value
  | call_CheckStatusReg => z ← CheckStatusReg dev; mret (byte_value z)
  | call_MeasureAllChannels => MeasureAllChannels dev fuel;; mret no_value
  | call_MeasureChannel channel_number =>
      temp ← MeasureChannel dev fuel channel_number; mret (float_value temp)
  | call_StartMeasurement channel_number =>
      StartMeasurement dev channel_number;; mret no_value
  | call_FinishedMeasurement =>
      b ← FinishedMeasurement dev; mret (bool_value b)
  | call_ReadMeasurementResult channel_number =>
      temp ← ReadMeasurementResult dev channel_number;
      mret (float_value temp)
  | call_InterruptHandler => InterruptHandler;; mret no_value
  end.

Fixpoint invoke_all (fuel : nat) (ms : list Method) : M (list Value) :=
  match ms with
  | [] => mret []
  | m :: rest =>
      v ← invoke fuel m;
      vs ← invoke_all fuel rest;
      mret (v :: vs)
  end.

(** The calls of [InitializeAndConfigure] before it configures. *)
Definition initialization_calls (self : LTC2983Manager) : list Call :=
  [ pinMode (_chip_select_pin self) OUTPUT; pinMode (_reset_pin self) OUTPUT;
    digitalWrite (_reset_pin self) HIGH; delay 100 ]
  ++ (if decide (_spi self = 0) then [SPI_begin 0; SPI_setClockDivider 0]
      else if decide (_spi self = 1) then [SPI_begin 1; SPI_setClockDivider 1]
      else if decide (_spi self = 2) then [SPI_begin 2; SPI_setClockDivider 2]
      else [])
  ++ [delay 100].

(** The writes of [Sleep] and [StartMeasurement]. *)
Definition sleep_write (self : LTC2983Manager) : Call :=
  transfer_byte (to_uint8 (_chip_select_pin self)) (to_uint8 WRITE_TO_RAM)
    (COMMAND_STATUS_REGISTER mod 2 ^ 16) (to_uint8 SLEEP_BYTE).

Definition start_command (channel_number : nat) : Z :=
  to_uint8 (Z.lor CONVERSION_CONTROL_BYTE (Z.of_nat channel_number)).

Definition start_write (self : LTC2983Manager) (channel_number : nat)
    : Call :=
  transfer_byte (to_uint8 (_chip_select_pin self)) (to_uint8 WRITE_TO_RAM)
    (COMMAND_STATUS_REGISTER mod 2 ^ 16) (start_command channel_number).

End Interface.

(** ** Bit fields of a configuration word *)

(** The [width] bits of [w] from bit [lsb] on, as a number. *)
Definition field (lsb width w : Z) : Z :=
  Z.land (Z.shiftr w lsb) (Z.ones width).

(** A word reads back its parts: in every bit field inside the 32 bits
    that all the other parts leave clear, the word holds exactly what the
    part holds there. *)
Definition reads_back (parts : list Z) (w : Z) : Prop :=
  ∀ (i : nat) part lsb width,
    parts !! i = Some part →
    0 ≤ lsb → 0 ≤ width → lsb + width ≤ 32 →
    (∀ (j : nat) other,
       j ≠ i → parts !! j = Some other → field lsb width other = 0) →
    field lsb width w = field lsb width part.

Section Parts.

Context {K : LTC2983_configuration_constants}.

(** The operands of [|] in [AssignThermistor] and in [AssignRTD], in the
    order of the source. *)
Definition thermistor_parts (self : LTC2983Manager) : list Z :=
  [ SENSOR_TYPE__THERMISTOR_44006_10K_25C;
    Z.shiftl (Z.of_nat (_therm_sense_channel self))
      THERMISTOR_RSENSE_CHANNEL_LSB;
    THERMISTOR_DIFFERENTIAL;
    THERMISTOR_EXCITATION_MODE__SHARING_NO_ROTATION;
    THERMISTOR_EXCITATION_CURRENT__AUTORANGE ].

Definition rtd_parts (self : LTC2983Manager) : list Z :=
  [ SENSOR_TYPE__RTD_PT_100;
    Z.shiftl (Z.of_nat (_rtd_sense_channel self)) RTD_RSENSE_CHANNEL_LSB;
    RTD_NUM_WIRES__2_WIRE;
    RTD_EXCITATION_MODE__NO_ROTATION_SHARING;
    RTD_EXCITATION_CURRENT__50UA;
    RTD_STANDARD__AMERICAN ].

End Parts.

(** The first board with a thermistor wrongly assigned to channel 0. *)
Definition channel_zero_board : LTC2983Manager :=
  set_channel_assignments
    (<[0%nat := THERMISTOR_44006]> (channel_assignments board)) board.

(** * Properties *)

(** ** Running the monad *)

Lemma bind_Done {A B} (m : M A) (f : A → M B) self tr a self' tr' :
  m self tr = Done a self' tr' → (m ≫= f) self tr = f a self' tr'.
Proof. intros H. unfold mbind, M_bind. by rewrite H. Qed.

Lemma bind_Fault {A B} (m : M A) (f : A → M B) self tr tr' :
  m self tr = Fault tr' → (m ≫= f) self tr = Fault tr'.
Proof. intros H. unfold mbind, M_bind. by rewrite H. Qed.

Lemma bind_Hang {A B} (m : M A) (f : A → M B) self tr self' tr' :
  m self tr = Hang self' tr' → (m ≫= f) self tr = Hang self' tr'.
Proof. intros H. unfold mbind, M_bind. by rewrite H. Qed.

(** Unfolds the monad's plumbing, leaving the table accesses and the
    device's answers in place. *)
Ltac run :=
  unfold mbind, M_bind, mret, M_ret, gets, modify, call, when,
    do_transfer_byte, do_assign_channel, do_get_result,
    AssignSenseResistor, AssignThermistor, AssignRTD;
  cbn beta iota zeta.

(** Reads the members of an updated object. *)
Ltac fields :=
  cbn [channel_assignments channel_temperatures _rtd_sense_channel
       _therm_sense_channel _spi _chip_select_pin _reset_pin _sleeping
       _measurement_finished set_channel_assignments set_channel_temperatures
       set_rtd_sense_channel set_therm_sense_channel set_spi
       set_chip_select_pin set_reset_pin set_sleeping
       set_measurement_finished].

Lemma set_sleeping_false_id self :
  _sleeping self = false → set_sleeping false self = self.
Proof. destruct self; simpl; intros ->; reflexivity. Qed.

Lemma well_sized_set_sleeping b self :
  well_sized self → well_sized (set_sleeping b self).
Proof. done. Qed.

Lemma well_sized_lookup self (i : nat) :
  well_sized self → (i ≤ 20)%nat →
  is_Some (channel_assignments self !! i).
Proof.
  intros [Ha _] Hi. apply lookup_lt_is_Some. rewrite Ha.
  unfold TABLE_SIZE. lia.
Qed.

Section Properties.

Context {K : LTC2983_configuration_constants}.
Variable dev : Device.

(** ** One iteration of the configuration loop *)

Lemma configure_channel_run channel self tr assignment :
  channel_assignments self !! channel = Some assignment →
  configure_channel channel self tr
  = Done tt self (tr ++ channel_calls self channel).
Proof.
  intros H. unfold configure_channel, channel_calls, read_assignment.
  run. rewrite H. run.
  repeat case_decide; run; rewrite ?app_nil_r; reflexivity.
Qed.

Lemma for_each_configure_channel channels self tr :
  Forall (λ c, is_Some (channel_assignments self !! c)) channels →
  for_each channels configure_channel self tr
  = Done tt self (tr ++ flat_map (channel_calls self) channels).
Proof.
  intros H. revert tr.
  induction H as [|c channels [a Ha] _ IH]; intros tr; simpl.
  - by rewrite app_nil_r.
  - rewrite (bind_Done _ _ _ _ _ _ _ (configure_channel_run _ _ tr _ Ha)).
    rewrite IH. by rewrite <- app_assoc.
Qed.

Lemma channels_in_table self :
  well_sized self →
  Forall (λ c, is_Some (channel_assignments self !! c)) (seq 1 20).
Proof.
  intros Hw. apply Forall_forall. intros c Hc.
  apply elem_of_seq in Hc. apply well_sized_lookup; [done | lia].
Qed.

(** ** [Configure] and [WakeUp] *)

Lemma Configure_S fuel :
  Configure dev (S fuel)
  = (sleeping ← gets _sleeping;
     when sleeping (WakeUp dev fuel);;
     cs ← gets _chip_select_pin;
     do_transfer_byte dev cs WRITE_TO_RAM 0xF0
       (Z.lor TEMP_UNIT__C REJECTION__50_60_HZ);;
     cs ← gets _chip_select_pin;
     do_transfer_byte dev cs WRITE_TO_RAM 0xFF 0;;
     for_each (seq 1 20) configure_channel).
Proof. reflexivity. Qed.

Lemma WakeUp_S fuel :
  WakeUp dev (S fuel)
  = (rst ← gets _reset_pin;
     call (digitalWrite rst LOW);;
     call (delay 100);;
     rst ← gets _reset_pin;
     call (digitalWrite rst HIGH);;
     call (delay 200);;
     modify (set_sleeping false);;
     Configure dev fuel).
Proof. reflexivity. Qed.

Lemma Configure_awake fuel self tr :
  well_sized self → _sleeping self = false →
  Configure dev (S fuel) self tr
  = Done tt self (tr ++ configuration_calls self).
Proof.
  intros Hw Hs. rewrite Configure_S. run. rewrite Hs. run.
  rewrite for_each_configure_channel by by apply channels_in_table.
  unfold configuration_calls, device_wide_writes.
  by rewrite <- !app_assoc.
Qed.

Lemma WakeUp_run fuel self tr :
  well_sized self →
  WakeUp dev (S (S fuel)) self tr
  = Done tt (set_sleeping false self)
      (tr ++ reset_pulse self ++ configuration_calls self).
Proof.
  intros Hw. rewrite WakeUp_S. run.
  rewrite Configure_awake by done.
  unfold reset_pulse. by rewrite <- !app_assoc.
Qed.

Lemma wake_if_asleep fuel self tr :
  well_sized self →
  when (_sleeping self) (WakeUp dev (S (S fuel))) self tr
  = Done tt (set_sleeping false self) (tr ++ wake_calls self).
Proof.
  intros Hw. unfold wake_calls. destruct (_sleeping self) eqn:Hs; run.
  - by apply WakeUp_run.
  - by rewrite set_sleeping_false_id, app_nil_r.
Qed.

Lemma Configure_run fuel self tr :
  well_sized self →
  Configure dev (S (S (S fuel))) self tr
  = Done tt (set_sleeping false self)
      (tr ++ wake_calls self ++ configuration_calls self).
Proof.
  intros Hw. rewrite Configure_S.
  erewrite bind_Done by reflexivity.
  erewrite bind_Done by by apply wake_if_asleep.
  run.
  rewrite for_each_configure_channel by by apply channels_in_table.
  unfold configuration_calls, device_wide_writes.
  by rewrite <- !app_assoc.
Qed.

(** ** What a configuration pass contains *)

Lemma channel_calls_assign self d cs c w :
  assign_channel cs c w ∈ channel_calls self d → c = d.
Proof.
  unfold channel_calls.
  destruct (channel_assignments self !! d); [|by intros ?%elem_of_nil].
  repeat case_decide; rewrite ?list_elem_of_singleton, ?elem_of_nil;
    intros Hin; try done; by inversion Hin.
Qed.

Lemma channel_calls_unused self c :
  channel_assignments self !! c = Some UNUSED_CHANNEL →
  channel_calls self c = [].
Proof. intros H. unfold channel_calls. rewrite H. by case_decide. Qed.

Lemma channel_calls_unknown self c a :
  channel_assignments self !! c = Some a →
  a ≠ UNUSED_CHANNEL → a ≠ SENSE_RESISTOR_1000 →
  a ≠ THERMISTOR_44006 → a ≠ RTD_PT_100 →
  channel_calls self c = [Serial_println unknown_assignment_message].
Proof.
  intros Ha ????. unfold channel_calls. rewrite Ha. by repeat case_decide.
Qed.

Lemma configuration_calls_assign self cs c w :
  assign_channel cs c w ∈ configuration_calls self →
  assign_channel cs c w ∈ channel_calls self c.
Proof.
  unfold configuration_calls, device_wide_writes.
  rewrite elem_of_app. intros [H|H].
  - apply list_elem_of_In in H. simpl in H. intuition discriminate.
  - apply list_elem_of_In, in_flat_map in H as (d & _ & H).
    apply list_elem_of_In in H.
    by pose proof (channel_calls_assign _ _ _ _ _ H) as ->.
Qed.

Lemma wake_calls_assign self cs c w :
  assign_channel cs c w ∈ wake_calls self →
  assign_channel cs c w ∈ channel_calls self c.
Proof.
  unfold wake_calls. destruct (_sleeping self); [|by intros ?%elem_of_nil].
  unfold reset_pulse. rewrite elem_of_app. intros [H|H].
  - apply list_elem_of_In in H. simpl in H. intuition discriminate.
  - by apply configuration_calls_assign.
Qed.

(** C3.  [Configure] ends, and the calls it adds are: when the driver was
    asleep, the reset pulse and one configuration pass (from [WakeUp]);
    then a configuration pass.  A pass is the write of the two device-wide
    registers (unit and rejection at 0xF0, then conversion delay 0 at 0xFF)
    followed by the calls of channels 1, 2, ..., 20 in this order, each
    chosen by the channel's assignment.  A channel whose assignment is
    [UNUSED_CHANNEL] contributes no call, and no [assign_channel] naming it
    is issued anywhere.  Among the bus transactions of the call, the two
    device-wide writes come first. *)
Theorem Configure_sequence fuel self tr :
  well_sized self →
  Configure dev (3 + fuel) self tr
  = Done tt (set_sleeping false self)
      (tr ++ wake_calls self ++ configuration_calls self)
  ∧ configuration_calls self
    = device_wide_writes self ++ flat_map (channel_calls self) (seq 1 20)
  ∧ (∃ rest,
       filter is_bus_transaction
         (wake_calls self ++ configuration_calls self)
       = device_wide_writes self ++ rest)
  ∧ ∀ c : nat, (1 ≤ c ≤ 20)%nat →
      channel_assignments self !! c = Some UNUSED_CHANNEL →
      channel_calls self c = [] ∧
      ∀ cs w, assign_channel cs c w
              ∉ wake_calls self ++ configuration_calls self.
Proof.
  intros Hw. split; [by apply Configure_run|]. split; [done|]. split.
  { unfold wake_calls, configuration_calls.
    destruct (_sleeping self); rewrite !filter_app; eauto. }
  intros c _ Hc. pose proof (channel_calls_unused _ _ Hc) as Hnil.
  split; [done|]. intros cs w [H|H]%elem_of_app.
  - apply wake_calls_assign in H. rewrite Hnil in H. by apply elem_of_nil in H.
  - apply configuration_calls_assign in H. rewrite Hnil in H.
    by apply elem_of_nil in H.
Qed.

Lemma channel_calls_other_assignment self c a d :
  d ≠ c →
  channel_calls
    (set_channel_assignments (<[c := a]> (channel_assignments self)) self) d
  = channel_calls self d.
Proof.
  intros Hd. unfold channel_calls. cbn [channel_assignments
    set_channel_assignments _chip_select_pin].
  by rewrite list_lookup_insert_ne.
Qed.

(** C7.  A channel [c] in 1..20 whose assignment is none of the four
    enumerators does not stop [Configure]: it ends, its pass is the
    device-wide writes, the calls of channels 1..c-1, the line printed on
    [Serial] for [c], then the calls of channels c+1..20; and the calls of
    every other channel are those it would have with [c] unused. *)
Theorem Configure_unknown_assignment fuel self tr (c : nat) a :
  well_sized self → (1 ≤ c ≤ 20)%nat →
  channel_assignments self !! c = Some a →
  a ≠ UNUSED_CHANNEL → a ≠ SENSE_RESISTOR_1000 →
  a ≠ THERMISTOR_44006 → a ≠ RTD_PT_100 →
  Configure dev (3 + fuel) self tr
  = Done tt (set_sleeping false self)
      (tr ++ wake_calls self ++ configuration_calls self)
  ∧ configuration_calls self
    = device_wide_writes self
      ++ flat_map (channel_calls self) (seq 1 (c - 1))
      ++ [Serial_println unknown_assignment_message]
      ++ flat_map (channel_calls self) (seq (S c) (20 - c))
  ∧ ∀ d : nat, d ≠ c →
      channel_calls self d
      = channel_calls
          (set_channel_assignments
             (<[c := UNUSED_CHANNEL]> (channel_assignments self)) self) d.
Proof.
  intros Hw Hc Ha H0 H1 H2 H3. split; [by apply Configure_run|]. split.
  - unfold configuration_calls. f_equal.
    replace 20%nat with ((c - 1) + (1 + (20 - c)))%nat at 1 by lia.
    rewrite !seq_app, !flat_map_app.
    replace (1 + (c - 1))%nat with c by lia.
    replace (c + 1)%nat with (S c) by lia.
    cbn [seq flat_map]. rewrite app_nil_r.
    by rewrite (channel_calls_unknown _ _ _ Ha).
  - intros d Hd. by rewrite channel_calls_other_assignment.
Qed.

(** ** [MeasureChannel] *)

(** The three ways a call of [MeasureChannel] goes, by the index and the
    assignment found in the table. *)
Lemma MeasureChannel_out_of_table fuel (c : nat) self tr :
  well_sized self → (21 ≤ c)%nat →
  MeasureChannel dev (2 + fuel) c self tr = Fault (tr ++ wake_calls self).
Proof.
  intros Hw Hc. unfold MeasureChannel.
  erewrite bind_Done by reflexivity.
  erewrite bind_Done by by apply wake_if_asleep.
  apply bind_Fault. unfold read_assignment. fields.
  rewrite lookup_ge_None_2; [done|]. destruct Hw as [-> _]. done.
Qed.

Lemma MeasureChannel_not_measured fuel (c : nat) self tr a :
  well_sized self → (c ≤ 20)%nat →
  channel_assignments self !! c = Some a →
  a ≠ THERMISTOR_44006 → a ≠ RTD_PT_100 →
  MeasureChannel dev (2 + fuel) c self tr
  = Done TEMPERATURE_ERROR
      (set_channel_temperatures
         (<[c := TEMPERATURE_ERROR]> (channel_temperatures self))
         (set_sleeping false self))
      (tr ++ wake_calls self).
Proof.
  intros Hw Hc Ha H2 H3. unfold MeasureChannel.
  erewrite bind_Done by reflexivity.
  erewrite bind_Done by by apply wake_if_asleep.
  unfold read_assignment, write_temperature. run.
  fields. rewrite Ha.
  rewrite decide_False by (intros [?|?]; done). fields.
  rewrite decide_True; [done|]. destruct Hw as [_ ->]. unfold TABLE_SIZE. lia.
Qed.

Lemma MeasureChannel_measured fuel (c : nat) self tr a :
  well_sized self → (c ≤ 20)%nat →
  channel_assignments self !! c = Some a →
  a = THERMISTOR_44006 ∨ a = RTD_PT_100 →
  MeasureChannel dev (2 + fuel) c self tr
  = match measure_channel_reply dev
            (tr ++ wake_calls self ++ [measure_call self c]) with
    | Some temp =>
        Done temp
          (set_channel_temperatures
             (<[c := temp]> (channel_temperatures self))
             (set_sleeping false self))
          (tr ++ wake_calls self ++ [measure_call self c])
    | None =>
        Hang (set_sleeping false self)
          (tr ++ wake_calls self ++ [measure_call self c])
    end.
Proof.
  intros Hw Hc Ha Hm. unfold MeasureChannel.
  erewrite bind_Done by reflexivity.
  erewrite bind_Done by by apply wake_if_asleep.
  unfold read_assignment, write_temperature, do_measure_channel, measure_call.
  run. fields. rewrite Ha.
  rewrite decide_True by done. fields. rewrite <- !app_assoc.
  destruct (measure_channel_reply dev _); [|done]. fields.
  rewrite decide_True; [done|]. destruct Hw as [_ ->]. unfold TABLE_SIZE. lia.
Qed.

Lemma wake_calls_no_measure self cs ch out :
  measure_channel cs ch out ∉ wake_calls self.
Proof.
  unfold wake_calls. destruct (_sleeping self); [|by intros ?%elem_of_nil].
  unfold reset_pulse, configuration_calls, device_wide_writes.
  rewrite !elem_of_app. intros [H|[H|H]].
  - apply list_elem_of_In in H. simpl in H. intuition discriminate.
  - apply list_elem_of_In in H. simpl in H. intuition discriminate.
  - apply list_elem_of_In, in_flat_map in H as (d & _ & H).
    unfold channel_calls in H.
    destruct (channel_assignments self !! d); [|done].
    repeat case_decide; simpl in H; intuition discriminate.
Qed.

(** C2, as the code has it.  On a channel in 1..20 whose assignment is
    neither [THERMISTOR_44006] nor [RTD_PT_100], [MeasureChannel] returns
    [TEMPERATURE_ERROR] and stores it for that channel.  The calls it adds
    are those of the implicit wake-up: none at all when the driver is awake,
    the reset pulse and one configuration pass when it is asleep.  The
    blocking helper is not called. *)
Theorem MeasureChannel_unsupported fuel (c : nat) self tr a :
  well_sized self → (1 ≤ c ≤ 20)%nat →
  channel_assignments self !! c = Some a →
  a ≠ THERMISTOR_44006 → a ≠ RTD_PT_100 →
  MeasureChannel dev (2 + fuel) c self tr
  = Done TEMPERATURE_ERROR
      (set_channel_temperatures
         (<[c := TEMPERATURE_ERROR]> (channel_temperatures self))
         (set_sleeping false self))
      (tr ++ wake_calls self)
  ∧ (_sleeping self = false → tr ++ wake_calls self = tr)
  ∧ (_sleeping self = true →
     wake_calls self = reset_pulse self ++ configuration_calls self)
  ∧ ∀ cs ch out, measure_channel cs ch out ∉ wake_calls self.
Proof.
  intros Hw Hc Ha H2 H3. split_and!.
  - apply MeasureChannel_not_measured with a; auto with lia.
  - intros Hs. unfold wake_calls. rewrite Hs. apply app_nil_r.
  - intros Hs. unfold wake_calls. by rewrite Hs.
  - intros cs ch out. apply wake_calls_no_measure.
Qed.

(** C4.  When the driver is asleep, [MeasureChannel] on any channel first
    performs [WakeUp]: the reset line is driven low, then high, with the two
    delays, and one full configuration pass follows.  The call then goes on
    exactly as it would on the awake object after these calls, so whatever
    it ends with has them as a prefix of its trace, and the driver is awake
    afterwards. *)
Theorem MeasureChannel_implicit_WakeUp fuel (c : nat) self tr :
  well_sized self → _sleeping self = true →
  let woken := tr ++ reset_pulse self ++ configuration_calls self in
  WakeUp dev (2 + fuel) self tr = Done tt (set_sleeping false self) woken
  ∧ MeasureChannel dev (2 + fuel) c self tr
    = MeasureChannel dev (2 + fuel) c (set_sleeping false self) woken
  ∧ match MeasureChannel dev (2 + fuel) c self tr with
    | Done _ self' tr' | Hang self' tr' =>
        _sleeping self' = false ∧ woken `prefix_of` tr'
    | Fault tr' => (21 ≤ c)%nat ∧ woken `prefix_of` tr'
    | OutOfFuel => False
    end.
Proof.
  intros Hw Hs woken.
  assert (Hwake : wake_calls self = reset_pulse self ++ configuration_calls self)
    by (unfold wake_calls; by rewrite Hs).
  split; [by apply WakeUp_run|]. split.
  - unfold MeasureChannel.
    erewrite bind_Done by reflexivity.
    erewrite bind_Done by by apply wake_if_asleep.
    erewrite (bind_Done (gets _sleeping)) by reflexivity.
    erewrite (bind_Done (when _ _)) by reflexivity.
    by rewrite Hwake.
  - destruct (decide (c ≤ 20)%nat) as [Hc|Hc].
    + destruct (well_sized_lookup self c Hw Hc) as [a Ha].
      destruct (decide (a = THERMISTOR_44006 ∨ a = RTD_PT_100)) as [Hm|Hm].
      * rewrite (MeasureChannel_measured fuel c self tr a) by done.
        rewrite Hwake.
        destruct (measure_channel_reply dev _); (split; [done|]);
          subst woken; rewrite !app_assoc; by apply prefix_app_r.
      * rewrite (MeasureChannel_not_measured fuel c self tr a)
          by (try done; intros ->; apply Hm; auto).
        rewrite Hwake. split; [done|]. subst woken. by rewrite app_assoc.
    + rewrite MeasureChannel_out_of_table by (done || lia).
      rewrite Hwake. split; [lia|]. subst woken. by rewrite app_assoc.
Qed.

(** C9.  On a channel [c] in 1..20, [MeasureChannel] leaves
    [channel_assignments] as it was and changes [channel_temperatures] at
    index [c] only, where it stores the value it returns.  It never indexes
    outside the tables.  It returns whenever the blocking helper does (or is
    not called); when the helper never returns, both tables are still
    unchanged. *)
Theorem MeasureChannel_frame fuel (c : nat) self tr :
  well_sized self → (1 ≤ c ≤ 20)%nat →
  match MeasureChannel dev (2 + fuel) c self tr with
  | Done temp self' tr' =>
      channel_assignments self' = channel_assignments self
      ∧ channel_temperatures self' = <[c := temp]> (channel_temperatures self)
      ∧ channel_temperatures self' !! c = Some temp
      ∧ ∀ d : nat, d ≠ c →
          channel_temperatures self' !! d = channel_temperatures self !! d
  | Hang self' tr' =>
      channel_assignments self' = channel_assignments self
      ∧ channel_temperatures self' = channel_temperatures self
      ∧ measure_channel_reply dev tr' = None
  | Fault _ | OutOfFuel => False
  end
  ∧ (is_Some (measure_channel_reply dev
                (tr ++ wake_calls self ++ [measure_call self c])) →
     ∃ temp self' tr',
       MeasureChannel dev (2 + fuel) c self tr = Done temp self' tr').
Proof.
  intros Hw Hc.
  assert (Hlen : (c < length (channel_temperatures self))%nat)
    by (destruct Hw as [_ ->]; unfold TABLE_SIZE; lia).
  destruct (well_sized_lookup self c Hw ltac:(lia)) as [a Ha].
  destruct (decide (a = THERMISTOR_44006 ∨ a = RTD_PT_100)) as [Hm|Hm].
  - rewrite (MeasureChannel_measured fuel c self tr a) by (done || lia).
    destruct (measure_channel_reply dev _) as [temp|] eqn:Hreply.
    + split; [|eauto]. fields. split_and!; [done..| |].
      * by apply list_lookup_insert_eq.
      * intros d Hd. by apply list_lookup_insert_ne.
    + split; [by fields|]. by intros [? ?].
  - rewrite (MeasureChannel_not_measured fuel c self tr a)
      by (try done; try lia; intros ->; apply Hm; auto).
    split; [|eauto]. fields. split_and!; [done..| |].
    + by apply list_lookup_insert_eq.
    + intros d Hd. by apply list_lookup_insert_ne.
Qed.

(** C10.  [MeasureChannel] does not check its argument.  With
    [channel_number] at most 20 its read of [channel_assignments] and its
    write of [channel_temperatures] are inside the 21 elements and the call
    does not fault.  With [channel_number] 21 or more both accesses are
    outside the tables, and the call goes straight to the read outside
    [channel_assignments]. *)
Theorem MeasureChannel_bounds fuel (c : nat) self tr :
  well_sized self →
  ((c ≤ 20)%nat →
     is_Some (channel_assignments self !! c)
     ∧ (c < length (channel_temperatures self))%nat
     ∧ ∀ tr', MeasureChannel dev (2 + fuel) c self tr ≠ Fault tr')
  ∧ ((21 ≤ c)%nat →
     read_assignment c self tr = Fault tr
     ∧ (∀ temp, write_temperature c temp self tr = Fault tr)
     ∧ MeasureChannel dev (2 + fuel) c self tr
       = Fault (tr ++ wake_calls self)).
Proof.
  intros Hw. split; intros Hc.
  - destruct (well_sized_lookup self c Hw Hc) as [a Ha].
    split; [by eexists|].
    split; [destruct Hw as [_ ->]; unfold TABLE_SIZE; lia|].
    intros tr'.
    destruct (decide (a = THERMISTOR_44006 ∨ a = RTD_PT_100)) as [Hm|Hm].
    + rewrite (MeasureChannel_measured fuel c self tr a) by done.
      by destruct (measure_channel_reply dev _).
    + by rewrite (MeasureChannel_not_measured fuel c self tr a)
        by (try done; intros ->; apply Hm; auto).
  - split_and!.
    + unfold read_assignment. rewrite lookup_ge_None_2; [done|].
      by destruct Hw as [-> _].
    + intros temp. unfold write_temperature. rewrite decide_False; [done|].
      destruct Hw as [_ ->]. unfold TABLE_SIZE. lia.
    + by apply MeasureChannel_out_of_table.
Qed.

(** ** The non-blocking triad *)

Lemma FinishedMeasurement_run self tr :
  FinishedMeasurement dev self tr
  = Done (bool_decide (Z.land (status_reply dev self tr) 0x40 ≠ 0)) self
      (tr ++ [status_read self]).
Proof. reflexivity. Qed.

(** With bit 6 set the result is fetched with [get_result]. *)
Lemma ReadMeasurementResult_ready (c : nat) self tr :
  Z.land (status_reply dev self tr) 0x40 ≠ 0 →
  ReadMeasurementResult dev c self tr
  = Done
      (get_result_reply dev
         (tr ++ [status_read self;
                 get_result (to_uint8 (_chip_select_pin self)) c
                   (to_uint8 TEMPERATURE)]))
      (set_measurement_finished false self)
      (tr ++ [status_read self;
              get_result (to_uint8 (_chip_select_pin self)) c
                (to_uint8 TEMPERATURE)]).
Proof.
  intros Hbit. unfold ReadMeasurementResult.
  erewrite bind_Done by reflexivity.
  erewrite bind_Done by apply FinishedMeasurement_run.
  change (status_reply dev (set_measurement_finished false self) tr)
    with (status_reply dev self tr).
  rewrite bool_decide_eq_true_2 by done.
  cbn [negb]. run. fields. by rewrite <- !app_assoc.
Qed.

(** C1, as the code has it.  When the status byte read by
    [ReadMeasurementResult] has bit 6 clear, the method returns
    [TEMPERATURE_ERROR]; the one call it adds is that read of the status
    register (the result register is not read); and the object is unchanged
    but for [_measurement_finished], which is cleared. *)
Theorem ReadMeasurementResult_not_ready (c : nat) self tr :
  Z.land (status_reply dev self tr) 0x40 = 0 →
  ReadMeasurementResult dev c self tr
  = Done TEMPERATURE_ERROR (set_measurement_finished false self)
      (tr ++ [status_read self]).
Proof.
  intros Hbit. unfold ReadMeasurementResult.
  erewrite bind_Done by reflexivity.
  erewrite bind_Done by apply FinishedMeasurement_run.
  change (status_reply dev (set_measurement_finished false self) tr)
    with (status_reply dev self tr).
  rewrite bool_decide_eq_false_2 by (intros H; by apply H).
  reflexivity.
Qed.

(** C8.  [ReadMeasurementResult] does not read [_measurement_finished]:
    run on two objects that differ in that member only, and on the same
    trace, it ends in the same way (same value, same object, same trace).
    In particular a preceding [InterruptHandler] changes nothing. *)
Theorem ReadMeasurementResult_ignores_flag (c : nat) self tr (flag : bool) :
  ReadMeasurementResult dev c (set_measurement_finished flag self) tr
  = ReadMeasurementResult dev c self tr
  ∧ (InterruptHandler;; ReadMeasurementResult dev c) self tr
    = ReadMeasurementResult dev c self tr.
Proof. split; reflexivity. Qed.

(** ** The words of the encoders, bit by bit *)

Lemma field_clear_bit lsb constant n :
  0 ≤ lsb → 0 ≤ n < 5 →
  leaves_field_clear lsb constant → Z.testbit constant (n + lsb) = false.
Proof.
  intros Hlsb Hn [_ Hclear].
  assert (Hbit : Z.testbit (Z.land (Z.shiftr constant lsb) 31) n = false)
    by (rewrite Hclear; apply Z.bits_0).
  rewrite Z.land_spec, Z.shiftr_spec in Hbit by lia.
  change 31 with (Z.ones 5) in Hbit.
  rewrite Z.ones_spec_low, andb_true_r in Hbit by lia. done.
Qed.

Lemma small_bit_high r n : 0 ≤ r < 32 → 5 ≤ n → Z.testbit r n = false.
Proof.
  intros Hr Hn. rewrite <- (Z.mod_small r (2 ^ 5)) by (change (2 ^ 5) with 32; lia).
  apply Z.mod_pow2_bits_high. lia.
Qed.

(** Reading the five-bit field at [lsb] of a word in which everything but
    the shifted channel leaves that field clear. *)
Lemma sense_field_extract lsb r w :
  0 ≤ lsb → lsb + 5 ≤ 32 → 0 ≤ r < 32 →
  (∀ n, 0 ≤ n < 5 → Z.testbit w (n + lsb) = Z.testbit r n) →
  Z.land (Z.shiftr (to_uint32 w) lsb) 31 = r.
Proof.
  intros Hlsb Hfit Hr Hw. apply Z.bits_inj'. intros n Hn.
  rewrite Z.land_spec, Z.shiftr_spec by done. change 31 with (Z.ones 5).
  destruct (decide (n < 5)) as [Hlt|Hge].
  - rewrite Z.ones_spec_low, andb_true_r by lia.
    unfold to_uint32. rewrite Z.mod_pow2_bits_low by lia. apply Hw. lia.
  - rewrite Z.ones_spec_high, andb_false_r by lia.
    symmetry. apply small_bit_high; lia.
Qed.

Lemma to_uint32_range z : 0 ≤ to_uint32 z < 2 ^ 32.
Proof. unfold to_uint32. apply Z.mod_pos_bound. done. Qed.

(** Bits of a field and of an or of parts. *)
Lemma field_bit lsb width w n :
  0 ≤ lsb → 0 ≤ width → 0 ≤ n →
  Z.testbit (field lsb width w) n
  = Z.testbit w (n + lsb) && bool_decide (n < width).
Proof.
  intros Hlsb Hwidth Hn. unfold field.
  rewrite Z.land_spec, Z.shiftr_spec by done.
  case_bool_decide.
  - by rewrite Z.ones_spec_low by lia.
  - by rewrite Z.ones_spec_high by lia.
Qed.

Lemma field_clear_at lsb width other n :
  0 ≤ lsb → 0 ≤ width → 0 ≤ n < width →
  field lsb width other = 0 → Z.testbit other (n + lsb) = false.
Proof.
  intros Hlsb Hwidth Hn Hclear.
  assert (Hbit : Z.testbit (field lsb width other) n = false)
    by (rewrite Hclear; apply Z.bits_0).
  rewrite field_bit, bool_decide_eq_true_2, andb_true_r in Hbit by lia.
  done.
Qed.

Lemma lor_all_clear parts m :
  (∀ (j : nat) other, parts !! j = Some other → Z.testbit other m = false) →
  Z.testbit (foldr Z.lor 0 parts) m = false.
Proof.
  induction parts as [|p parts IH]; intros Hparts; cbn [foldr].
  - apply Z.bits_0.
  - rewrite Z.lor_spec, (Hparts 0%nat p) by done.
    apply IH. intros j other Hj. by apply (Hparts (S j)).
Qed.

Lemma lor_all_bit parts : ∀ (i : nat) part m,
  parts !! i = Some part →
  (∀ (j : nat) other,
     j ≠ i → parts !! j = Some other → Z.testbit other m = false) →
  Z.testbit (foldr Z.lor 0 parts) m = Z.testbit part m.
Proof.
  induction parts as [|p parts IH]; intros i part m Hi Hothers; [done|].
  cbn [foldr]. rewrite Z.lor_spec. destruct i as [|i].
  - injection Hi as ->. rewrite lor_all_clear; [apply orb_false_r|].
    intros j other Hj. by apply (Hothers (S j)).
  - rewrite (Hothers 0%nat p) by done. cbn [orb].
    apply (IH i); [done|]. intros j other Hne Hj.
    apply (Hothers (S j)); [lia|done].
Qed.

Lemma lor_all_reads_back parts :
  reads_back parts (to_uint32 (foldr Z.lor 0 parts)).
Proof.
  intros i part lsb width Hi Hlsb Hwidth Hfit Hothers.
  apply Z.bits_inj'. intros n Hn. rewrite !field_bit by done.
  case_bool_decide; [|by rewrite !andb_false_r].
  rewrite !andb_true_r. unfold to_uint32.
  rewrite Z.mod_pow2_bits_low by lia.
  apply (lor_all_bit parts i); [done|]. intros j other Hne Hj.
  apply (field_clear_at lsb width); [done|done|lia|]. by apply (Hothers j).
Qed.

Lemma thermistor_data_parts self :
  thermistor_data self = to_uint32 (foldr Z.lor 0 (thermistor_parts self)).
Proof.
  unfold thermistor_data, thermistor_parts. cbn [foldr].
  by rewrite Z.lor_0_r, !Z.lor_assoc.
Qed.

Lemma rtd_data_parts self :
  rtd_data self = to_uint32 (foldr Z.lor 0 (rtd_parts self)).
Proof.
  unfold rtd_data, rtd_parts. cbn [foldr].
  by rewrite Z.lor_0_r, !Z.lor_assoc.
Qed.

(** C6.  [AssignThermistor] issues one [assign_channel] for its channel,
    and [Configure] dispatches a channel assigned [THERMISTOR_44006] to it.
    The word it passes is a 32-bit value and is exactly the or of five
    parts: the type tag, the sense channel shifted to
    [THERMISTOR_RSENSE_CHANNEL_LSB], the differential flag, the
    sharing-no-rotation mode and the autorange current.  It sets each of
    them and nothing in its place: in every bit field that the other four
    parts leave clear, the word holds exactly the value of that part (for a
    part whose value is zero, such as a flag that is a cleared bit, the
    field of the word is zero).  In particular, when the four constants
    leave the five bits from [THERMISTOR_RSENSE_CHANNEL_LSB] clear, shifting
    the word right by that amount and masking with 31 gives back the sense
    channel r in 1..20.  The same holds of [AssignRTD] with its six parts
    (PT-100 tag, sense channel, 2-wire, no-rotation-sharing, 50 uA, American
    curve) and [RTD_RSENSE_CHANNEL_LSB]. *)
Theorem encoders_embed_sense_channel (c : nat) self tr :
  (thermistor_layout → (1 ≤ _therm_sense_channel self ≤ 20)%nat →
   let w := thermistor_data self in
   AssignThermistor c self tr
   = Done tt self (tr ++ [assign_channel (to_uint8 (_chip_select_pin self)) c w])
   ∧ (channel_assignments self !! c = Some THERMISTOR_44006 →
      configure_channel c self tr = AssignThermistor c self tr)
   ∧ 0 ≤ w < 2 ^ 32
   ∧ Z.land (Z.shiftr w THERMISTOR_RSENSE_CHANNEL_LSB) 31
     = Z.of_nat (_therm_sense_channel self)
   ∧ w = to_uint32 (foldr Z.lor 0 (thermistor_parts self))
   ∧ reads_back (thermistor_parts self) w)
  ∧ (rtd_layout → (1 ≤ _rtd_sense_channel self ≤ 20)%nat →
     let w := rtd_data self in
     AssignRTD c self tr
     = Done tt self (tr ++ [assign_channel (to_uint8 (_chip_select_pin self)) c w])
     ∧ (channel_assignments self !! c = Some RTD_PT_100 →
        configure_channel c self tr = AssignRTD c self tr)
     ∧ 0 ≤ w < 2 ^ 32
     ∧ Z.land (Z.shiftr w RTD_RSENSE_CHANNEL_LSB) 31
       = Z.of_nat (_rtd_sense_channel self)
     ∧ w = to_uint32 (foldr Z.lor 0 (rtd_parts self))
     ∧ reads_back (rtd_parts self) w).
Proof.
  split.
  - intros (Hlsb & Hfit & Hclear) Hr w.
    apply Forall_cons in Hclear as [H1 Hclear].
    apply Forall_cons in Hclear as [H2 Hclear].
    apply Forall_cons in Hclear as [H3 Hclear].
    apply Forall_cons in Hclear as [H4 _].
    split_and!;
      [done| |apply to_uint32_range|apply to_uint32_range| | |].
    + intros Ha. unfold configure_channel, read_assignment. run.
      rewrite Ha. by repeat case_decide.
    + apply sense_field_extract; [done|done|lia|]. intros n Hn.
      rewrite !Z.lor_spec, Z.shiftl_spec by lia.
      rewrite !(field_clear_bit _ _ n) by done.
      replace (n + THERMISTOR_RSENSE_CHANNEL_LSB
               - THERMISTOR_RSENSE_CHANNEL_LSB) with n by lia.
      by rewrite !orb_false_r.
    + apply thermistor_data_parts.
    + subst w. rewrite thermistor_data_parts. apply lor_all_reads_back.
  - intros (Hlsb & Hfit & Hclear) Hr w.
    apply Forall_cons in Hclear as [H1 Hclear].
    apply Forall_cons in Hclear as [H2 Hclear].
    apply Forall_cons in Hclear as [H3 Hclear].
    apply Forall_cons in Hclear as [H4 Hclear].
    apply Forall_cons in Hclear as [H5 _].
    split_and!;
      [done| |apply to_uint32_range|apply to_uint32_range| | |].
    + intros Ha. unfold configure_channel, read_assignment. run.
      rewrite Ha. by repeat case_decide.
    + apply sense_field_extract; [done|done|lia|]. intros n Hn.
      rewrite !Z.lor_spec, Z.shiftl_spec by lia.
      rewrite !(field_clear_bit _ _ n) by done.
      replace (n + RTD_RSENSE_CHANNEL_LSB - RTD_RSENSE_CHANNEL_LSB)
        with n by lia.
      by rewrite !orb_false_r.
    + apply rtd_data_parts.
    + subst w. rewrite rtd_data_parts. apply lor_all_reads_back.
Qed.

End Properties.

(** ** The constructor *)

Lemma constructor_loop_body (k : nat) A T r t spi cs rst sl mf tr :
  (k < length A)%nat → (k < length T)%nat →
  (write_assignment k UNUSED_CHANNEL;;
   write_temperature k TEMPERATURE_ERROR)
    (mkLTC2983Manager A T r t spi cs rst sl mf) tr
  = Done tt
      (mkLTC2983Manager (<[k := UNUSED_CHANNEL]> A)
         (<[k := TEMPERATURE_ERROR]> T) r t spi cs rst sl mf) tr.
Proof.
  intros HA HT. unfold write_assignment, write_temperature. run. fields.
  destruct (decide (k < length A)%nat); [|lia]. fields.
  destruct (decide (k < length T)%nat); [|lia]. reflexivity.
Qed.

(** The initialising loop, started at channel [k] with [n] channels to go,
    overwrites the last [n] elements of both tables. *)
Lemma constructor_loop n : ∀ k A T r t spi cs rst sl mf tr,
  length A = 21%nat → length T = 21%nat → (k + n = 21)%nat →
  for_each (seq k n) (λ channel,
    write_assignment channel UNUSED_CHANNEL;;
    write_temperature channel TEMPERATURE_ERROR)
    (mkLTC2983Manager A T r t spi cs rst sl mf) tr
  = Done tt
      (mkLTC2983Manager (take k A ++ replicate n UNUSED_CHANNEL)
         (take k T ++ replicate n TEMPERATURE_ERROR) r t spi cs rst sl mf) tr.
Proof.
  induction n as [|n IH]; intros k A T r t spi cs rst sl mf tr HA HT Hk.
  - cbn [seq for_each replicate]. rewrite !app_nil_r.
    rewrite !take_ge by lia. reflexivity.
  - cbn [seq for_each].
    erewrite bind_Done by (apply constructor_loop_body; lia).
    rewrite IH by (rewrite ?length_insert; lia).
    rewrite (take_S_r (<[k := UNUSED_CHANNEL]> A) k UNUSED_CHANNEL)
      by (apply list_lookup_insert_eq; lia).
    rewrite (take_S_r (<[k := TEMPERATURE_ERROR]> T) k TEMPERATURE_ERROR)
      by (apply list_lookup_insert_eq; lia).
    rewrite !take_insert_ge by lia.
    rewrite <- !app_assoc. reflexivity.
Qed.

Lemma write_assignment_run (i : nat) v self tr :
  (i < length (channel_assignments self))%nat →
  write_assignment i v self tr
  = Done tt (set_channel_assignments (<[i := v]> (channel_assignments self))
               self) tr.
Proof. intros Hi. unfold write_assignment. by rewrite decide_True. Qed.

(** The object the constructor leaves, written out. *)
Lemma constructor_run cs_pin rst_pin (therm_sense_ch rtd_sense_ch : nat)
    raw tr :
  well_sized raw →
  let therm_ok := bool_decide (0 < therm_sense_ch ∧ therm_sense_ch < 21)%nat in
  let rtd_ok := bool_decide (0 < rtd_sense_ch ∧ rtd_sense_ch < 21)%nat in
  let A0 := replicate 21 UNUSED_CHANNEL in
  let A1 := if therm_ok then <[therm_sense_ch := SENSE_RESISTOR_1000]> A0
            else A0 in
  let A2 := if rtd_ok then <[rtd_sense_ch := SENSE_RESISTOR_1000]> A1
            else A1 in
  LTC2983Manager_constructor cs_pin rst_pin therm_sense_ch rtd_sense_ch
    raw tr
  = Done tt
      (mkLTC2983Manager A2 (replicate 21 TEMPERATURE_ERROR)
         (if rtd_ok then rtd_sense_ch else 0%nat)
         (if therm_ok then therm_sense_ch else 0%nat)
         0 cs_pin rst_pin false false)
      (tr ++ [setSpiSup 0]).
Proof.
  intros [HA HT]. destruct raw as [A T r t spi cs rst sl mf].
  cbn [channel_assignments channel_temperatures] in HA, HT.
  unfold TABLE_SIZE in HA, HT. intros therm_ok rtd_ok A0 A1 A2.
  unfold LTC2983Manager_constructor.
  do 7 (erewrite bind_Done by reflexivity).
  unfold set_chip_select_pin, set_reset_pin, set_sleeping,
    set_measurement_finished, set_spi. fields.
  erewrite bind_Done by (by apply (constructor_loop 21 0)).
  rewrite !take_0, !app_nil_l. fold A0.
  assert (HA0 : length A0 = 21%nat) by apply length_replicate.
  subst A2 A1 therm_ok rtd_ok.
  destruct (decide (0 < therm_sense_ch ∧ therm_sense_ch < 21)%nat) as [Ht|Ht];
    [rewrite (bool_decide_eq_true_2 _ Ht)|rewrite (bool_decide_eq_false_2 _ Ht)];
    (destruct (decide (0 < rtd_sense_ch ∧ rtd_sense_ch < 21)%nat) as [Hr|Hr];
     [rewrite (bool_decide_eq_true_2 _ Hr)
     |rewrite (bool_decide_eq_false_2 _ Hr)]).
  - erewrite bind_Done; cycle 1.
    { erewrite bind_Done by reflexivity. erewrite bind_Done by reflexivity.
      apply write_assignment_run. fields. lia. }
    erewrite bind_Done by reflexivity. erewrite bind_Done by reflexivity.
    rewrite write_assignment_run by (fields; rewrite length_insert; lia).
    reflexivity.
  - erewrite bind_Done; cycle 1.
    { erewrite bind_Done by reflexivity. erewrite bind_Done by reflexivity.
      apply write_assignment_run. fields. lia. }
    reflexivity.
  - erewrite bind_Done by reflexivity.
    erewrite bind_Done by reflexivity. erewrite bind_Done by reflexivity.
    rewrite write_assignment_run by (fields; lia).
    reflexivity.
  - reflexivity.
Qed.

(** C5.  The constructor ends without touching anything outside the
    tables, whatever the storage held.  Afterwards every element of
    [channel_temperatures] is [TEMPERATURE_ERROR].  A sense parameter in
    1..20 is kept as the internal sense channel and that channel is assigned
    [SENSE_RESISTOR_1000]; a sense parameter outside 1..20 gives the
    internal value 0 and assigns nothing.  All other channels are
    [UNUSED_CHANNEL]. *)
Theorem constructor_initial_state cs_pin rst_pin
    (therm_sense_ch rtd_sense_ch : nat) raw tr :
  well_sized raw →
  ∃ self,
    LTC2983Manager_constructor cs_pin rst_pin therm_sense_ch rtd_sense_ch
      raw tr
    = Done tt self (tr ++ [setSpiSup 0])
    ∧ well_sized self
    ∧ channel_temperatures self = replicate 21 TEMPERATURE_ERROR
    ∧ ((1 ≤ therm_sense_ch ≤ 20)%nat →
       _therm_sense_channel self = therm_sense_ch
       ∧ channel_assignments self !! therm_sense_ch
         = Some SENSE_RESISTOR_1000)
    ∧ (¬ (1 ≤ therm_sense_ch ≤ 20)%nat → _therm_sense_channel self = 0%nat)
    ∧ ((1 ≤ rtd_sense_ch ≤ 20)%nat →
       _rtd_sense_channel self = rtd_sense_ch
       ∧ channel_assignments self !! rtd_sense_ch = Some SENSE_RESISTOR_1000)
    ∧ (¬ (1 ≤ rtd_sense_ch ≤ 20)%nat → _rtd_sense_channel self = 0%nat)
    ∧ (∀ i : nat, (i ≤ 20)%nat →
       ¬ ((1 ≤ therm_sense_ch ≤ 20)%nat ∧ i = therm_sense_ch) →
       ¬ ((1 ≤ rtd_sense_ch ≤ 20)%nat ∧ i = rtd_sense_ch) →
       channel_assignments self !! i = Some UNUSED_CHANNEL)
    ∧ _sleeping self = false ∧ _measurement_finished self = false
    ∧ _chip_select_pin self = cs_pin ∧ _reset_pin self = rst_pin
    ∧ _spi self = 0.
Proof.
  intros Hw. eexists. split; [by apply constructor_run|].
  assert (Hrep : ∀ i : nat, (i ≤ 20)%nat →
            replicate 21 UNUSED_CHANNEL !! i = Some UNUSED_CHANNEL)
    by (intros i Hi; apply lookup_replicate_2; lia).
  fields. unfold well_sized, TABLE_SIZE. fields.
  destruct (decide (0 < therm_sense_ch ∧ therm_sense_ch < 21)%nat) as [Ht|Ht];
    [rewrite (bool_decide_eq_true_2 _ Ht)|rewrite (bool_decide_eq_false_2 _ Ht)];
    (destruct (decide (0 < rtd_sense_ch ∧ rtd_sense_ch < 21)%nat) as [Hr|Hr];
     [rewrite (bool_decide_eq_true_2 _ Hr)
     |rewrite (bool_decide_eq_false_2 _ Hr)]);
    rewrite ?length_insert, !length_replicate;
    (split; [done|]); (split; [done|]).
  - split_and!; try done; try lia.
    + intros _. split; [done|].
      destruct (decide (rtd_sense_ch = therm_sense_ch)) as [->|Hne].
      * apply list_lookup_insert_eq. rewrite length_insert, length_replicate. lia.
      * rewrite list_lookup_insert_ne by done.
        apply list_lookup_insert_eq. rewrite length_replicate. lia.
    + intros _. split; [done|].
      apply list_lookup_insert_eq. rewrite length_insert, length_replicate. lia.
    + intros i Hi Hit Hir.
      rewrite !list_lookup_insert_ne by (intros ->; tauto). by apply Hrep.
  - split_and!; try done; try lia.
    + intros _. split; [done|].
      apply list_lookup_insert_eq. rewrite length_replicate. lia.
    + intros i Hi Hit Hir.
      rewrite !list_lookup_insert_ne by (intros ->; tauto). by apply Hrep.
  - split_and!; try done; try lia.
    + intros _. split; [done|].
      apply list_lookup_insert_eq. rewrite length_replicate. lia.
    + intros i Hi Hit Hir.
      rewrite !list_lookup_insert_ne by (intros ->; tauto). by apply Hrep.
  - split_and!; try done; try lia.
    intros i Hi Hit Hir. by apply Hrep.
Qed.

(** * Further properties of the methods *)

Section Further.

Context {K : LTC2983_configuration_constants}.
Variable dev : Device.

(** ** Power state *)

Lemma Sleep_run self tr :
  Sleep dev self tr
  = Done tt (set_sleeping true self) (tr ++ [sleep_write self]).
Proof. reflexivity. Qed.

(** X1.  [Sleep] followed by [WakeUp] is a round trip on the object: the
    sleep command is written, the reset line is pulsed, one configuration
    pass is made, and an object that was awake before is exactly as it
    was. *)
Theorem Sleep_WakeUp_round_trip fuel self tr :
  well_sized self → _sleeping self = false →
  (Sleep dev;; WakeUp dev (2 + fuel)) self tr
  = Done tt self
      (tr ++ [sleep_write self] ++ reset_pulse self
          ++ configuration_calls self).
Proof.
  intros Hw Hs. erewrite bind_Done by apply Sleep_run.
  change (2 + fuel)%nat with (S (S fuel)).
  rewrite WakeUp_run by done.
  change (set_sleeping false (set_sleeping true self))
    with (set_sleeping false self).
  rewrite set_sleeping_false_id by done.
  change (reset_pulse (set_sleeping true self)) with (reset_pulse self).
  change (configuration_calls (set_sleeping true self))
    with (configuration_calls self).
  by rewrite <- app_assoc.
Qed.

Lemma InitializeAndConfigure_run fuel self tr :
  well_sized self →
  InitializeAndConfigure dev (3 + fuel) self tr
  = Done tt (set_sleeping false self)
      (tr ++ initialization_calls self ++ wake_calls self
          ++ configuration_calls self).
Proof.
  intros Hw. unfold InitializeAndConfigure, initialization_calls.
  do 7 (erewrite bind_Done by reflexivity).
  repeat case_decide;
    (erewrite bind_Done by reflexivity);
    (erewrite bind_Done by reflexivity);
    change (3 + fuel)%nat with (S (S (S fuel)));
    rewrite Configure_run by done;
    f_equal; rewrite <- !app_assoc; reflexivity.
Qed.

(** ** What a configuration addresses *)

Lemma channel_calls_assign_inv self d cs c w :
  assign_channel cs c w ∈ channel_calls self d →
  c = d ∧ cs = to_uint8 (_chip_select_pin self)
  ∧ ((channel_assignments self !! c = Some SENSE_RESISTOR_1000
      ∧ w = sense_resistor_data)
     ∨ (channel_assignments self !! c = Some THERMISTOR_44006
        ∧ w = thermistor_data self)
     ∨ (channel_assignments self !! c = Some RTD_PT_100
        ∧ w = rtd_data self)).
Proof.
  unfold channel_calls.
  destruct (channel_assignments self !! d) as [a|] eqn:Ha;
    [|by intros ?%elem_of_nil].
  repeat case_decide; rewrite ?list_elem_of_singleton, ?elem_of_nil;
    intros Hin; try done; inversion Hin; subst; auto 10.
Qed.

Lemma configuration_calls_assign_inv self cs c w :
  assign_channel cs c w ∈ wake_calls self ++ configuration_calls self →
  ∃ d, d ∈ seq 1 20 ∧ assign_channel cs c w ∈ channel_calls self d.
Proof.
  assert (Hpass : assign_channel cs c w ∈ configuration_calls self →
          ∃ d, d ∈ seq 1 20 ∧ assign_channel cs c w ∈ channel_calls self d).
  { unfold configuration_calls, device_wide_writes.
    rewrite elem_of_app. intros [H|H].
    - apply list_elem_of_In in H. simpl in H. intuition discriminate.
    - apply list_elem_of_In, in_flat_map in H as (d & Hd & H).
      exists d. by rewrite !list_elem_of_In. }
  rewrite elem_of_app. intros [H|H]; [|by apply Hpass].
  unfold wake_calls in H. destruct (_sleeping self);
    [|by apply elem_of_nil in H].
  apply elem_of_app in H as [H|H]; [|by apply Hpass].
  apply list_elem_of_In in H. simpl in H. intuition discriminate.
Qed.

(** X2.  Whatever [Configure] or [WakeUp] assigns was declared.  Both
    methods end, and every [assign_channel] among the calls either of them
    adds to the trace names a channel in 1..20, goes to the chip-select pin
    of the object, and carries the word of the encoder that belongs to that
    channel's entry in [channel_assignments].  Channel 0, unused channels
    and channels with an unknown assignment are never addressed. *)
Theorem configuration_assigns_only_declared fuel self tr :
  well_sized self →
  ∃ configured woken,
    Configure dev (3 + fuel) self tr
    = Done tt (set_sleeping false self) (tr ++ configured)
    ∧ WakeUp dev (2 + fuel) self tr
      = Done tt (set_sleeping false self) (tr ++ woken)
    ∧ ∀ cs (c : nat) w,
        assign_channel cs c w ∈ configured
        ∨ assign_channel cs c w ∈ woken →
        (1 ≤ c ≤ 20)%nat
        ∧ cs = to_uint8 (_chip_select_pin self)
        ∧ ((channel_assignments self !! c = Some SENSE_RESISTOR_1000
            ∧ w = sense_resistor_data)
           ∨ (channel_assignments self !! c = Some THERMISTOR_44006
              ∧ w = thermistor_data self)
           ∨ (channel_assignments self !! c = Some RTD_PT_100
              ∧ w = rtd_data self)).
Proof.
  intros Hw.
  exists (wake_calls self ++ configuration_calls self),
    (reset_pulse self ++ configuration_calls self).
  split; [by apply Configure_run|].
  split; [by apply WakeUp_run|].
  intros cs c w Hin.
  assert (Hpass : assign_channel cs c w
                    ∈ wake_calls self ++ configuration_calls self).
  { destruct Hin as [Hin|Hin]; [done|].
    apply elem_of_app in Hin as [Hin|Hin].
    - apply list_elem_of_In in Hin. simpl in Hin. intuition discriminate.
    - apply elem_of_app. by right. }
  apply configuration_calls_assign_inv in Hpass as (d & Hd & Hcall).
  apply channel_calls_assign_inv in Hcall as (-> & Hcs & Hword).
  apply elem_of_seq in Hd. split; [lia|done].
Qed.

(** X3.  Channel 0 is measured but never configured.  With a thermistor or
    an RTD entered at index 0 of [channel_assignments], no configuration
    pass writes an assignment for channel 0, yet [MeasureChannel(0)] hands
    channel 0 to the blocking helper and stores what it returns at
    index 0. *)
Theorem channel_zero_measured_not_configured fuel self tr :
  well_sized self → measures_temperature self 0 →
  (∀ cs w, assign_channel cs 0 w
           ∉ wake_calls self ++ configuration_calls self)
  ∧ MeasureChannel dev (2 + fuel) 0 self tr
    = match measure_channel_reply dev
              (tr ++ wake_calls self ++ [measure_call self 0]) with
      | Some temp =>
          Done temp
            (set_channel_temperatures
               (<[0%nat := temp]> (channel_temperatures self))
               (set_sleeping false self))
            (tr ++ wake_calls self ++ [measure_call self 0])
      | None =>
          Hang (set_sleeping false self)
            (tr ++ wake_calls self ++ [measure_call self 0])
      end.
Proof.
  intros Hw Hm. split.
  - intros cs w (d & Hd & Hin)%configuration_calls_assign_inv.
    apply channel_calls_assign_inv in Hin as (<- & _).
    apply elem_of_seq in Hd. lia.
  - destruct Hm as [Ha|Ha];
      by apply (MeasureChannel_measured dev fuel 0 self tr _ Hw
                  ltac:(lia) Ha); auto.
Qed.

(** ** Status and command bytes *)

Lemma completion_bit status :
  bool_decide (Z.land status 0x40 ≠ 0) = Z.testbit status 6.
Proof.
  destruct (Z.testbit status 6) eqn:Hbit.
  - apply bool_decide_eq_true_2. intros Hzero.
    assert (Z.testbit (Z.land status 0x40) 6 = true)
      by (rewrite Z.land_spec, Hbit; reflexivity).
    rewrite Hzero, Z.bits_0 in H. discriminate.
  - apply bool_decide_eq_false_2. intros Hnz. apply Hnz.
    apply Z.bits_inj'. intros n Hn. rewrite Z.land_spec, Z.bits_0.
    change 0x40 with (2 ^ 6). rewrite Z.pow2_bits_eqb by lia.
    destruct (Z.eqb_spec 6 n) as [<-|_]; [by rewrite Hbit|].
    apply andb_false_r.
Qed.

Lemma to_uint8_bit z n : 0 ≤ n < 8 → Z.testbit (to_uint8 z) n = Z.testbit z n.
Proof.
  intros Hn. unfold to_uint8. change 256 with (2 ^ 8).
  apply Z.mod_pow2_bits_low. lia.
Qed.

Lemma to_uint8_range z : 0 ≤ to_uint8 z < 256.
Proof. unfold to_uint8. by apply Z.mod_pos_bound. Qed.

Lemma completion_bit_of_reply self tr :
  bool_decide (Z.land (status_reply dev self tr) 0x40 ≠ 0)
  = Z.testbit (transfer_byte_reply dev (tr ++ [status_read self])) 6.
Proof.
  rewrite completion_bit. unfold status_reply. by rewrite to_uint8_bit.
Qed.

(** X4.  [FinishedMeasurement] makes one read of the status register and
    returns bit 6 of the byte it is answered with; no other bit of the
    answer matters, and the object is not changed. *)
Theorem FinishedMeasurement_bit_6 self tr :
  FinishedMeasurement dev self tr
  = Done (Z.testbit (transfer_byte_reply dev (tr ++ [status_read self])) 6)
      self (tr ++ [status_read self]).
Proof.
  rewrite FinishedMeasurement_run. f_equal. apply completion_bit_of_reply.
Qed.

(** X5.  When [COMMAND_STATUS_REGISTER] is address 0, [CheckStatusReg]
    and [FinishedMeasurement] issue the same read, [CheckStatusReg] returns
    the whole byte and [FinishedMeasurement] its bit 6. *)
Theorem CheckStatusReg_FinishedMeasurement self tr :
  COMMAND_STATUS_REGISTER mod 2 ^ 16 = 0 →
  ∃ status,
    0 ≤ status < 256
    ∧ CheckStatusReg dev self tr = Done status self (tr ++ [status_read self])
    ∧ FinishedMeasurement dev self tr
      = Done (Z.testbit status 6) self (tr ++ [status_read self]).
Proof.
  intros Haddr.
  exists (to_uint8 (transfer_byte_reply dev (tr ++ [status_read self]))).
  split; [apply to_uint8_range|]. split.
  - unfold CheckStatusReg, status_read. run. by rewrite Haddr.
  - by rewrite FinishedMeasurement_run, completion_bit.
Qed.

(** X6.  [StartMeasurement] clears the flag and writes one command byte
    to the command register without waking the driver or touching the
    tables.  When [CONVERSION_CONTROL_BYTE] is a byte with its five low bits
    clear, the command carries it, and for a channel up to 31 the five low
    bits of the command are the channel number; the channel is not checked
    against 1..20. *)
Theorem StartMeasurement_command (c : nat) self tr :
  StartMeasurement dev c self tr
  = Done tt (set_measurement_finished false self) (tr ++ [start_write self c])
  ∧ (0 ≤ CONVERSION_CONTROL_BYTE < 256 →
     Z.land CONVERSION_CONTROL_BYTE 31 = 0 → (c ≤ 31)%nat →
     Z.land (start_command c) 31 = Z.of_nat c
     ∧ Z.land (start_command c) CONVERSION_CONTROL_BYTE
       = CONVERSION_CONTROL_BYTE).
Proof.
  split; [reflexivity|]. intros Hbyte Hlow Hc. unfold start_command. split.
  - apply Z.bits_inj'. intros n Hn. rewrite Z.land_spec.
    change 31 with (Z.ones 5).
    destruct (decide (n < 5)) as [Hlt|Hge].
    + rewrite Z.ones_spec_low, andb_true_r by lia.
      rewrite to_uint8_bit, Z.lor_spec by lia.
      assert (Hclear : Z.testbit (Z.land CONVERSION_CONTROL_BYTE 31) n = false)
        by (rewrite Hlow; apply Z.bits_0).
      rewrite Z.land_spec in Hclear. change 31 with (Z.ones 5) in Hclear.
      rewrite Z.ones_spec_low, andb_true_r in Hclear by lia.
      by rewrite Hclear.
    + rewrite Z.ones_spec_high, andb_false_r by lia.
      symmetry. apply small_bit_high; lia.
  - apply Z.bits_inj'. intros n Hn. rewrite Z.land_spec.
    destruct (decide (n < 8)) as [Hlt|Hge].
    + rewrite to_uint8_bit, Z.lor_spec by lia.
      by destruct (Z.testbit CONVERSION_CONTROL_BYTE n), (Z.testbit _ n).
    + rewrite <- (Z.mod_small CONVERSION_CONTROL_BYTE (2 ^ 8)) at 2 3 by done.
      rewrite Z.mod_pow2_bits_high by lia. apply andb_false_r.
Qed.

(** ** The type tag of the three encoders *)

Lemma bit_above_bound x k n :
  0 ≤ x < 2 ^ k → 0 ≤ k ≤ n → Z.testbit x n = false.
Proof.
  intros Hx Hk. rewrite <- (Z.mod_small x (2 ^ k)) by done.
  by apply Z.mod_pow2_bits_high.
Qed.

Lemma shifted_channel_bit (r : nat) lsb n :
  (r ≤ 31)%nat → 0 ≤ lsb → lsb + 5 ≤ 27 → 0 ≤ n →
  Z.testbit (Z.shiftl (Z.of_nat r) lsb) (n + 27) = false.
Proof.
  intros Hr Hlsb Hfit Hn. rewrite Z.shiftl_spec by lia.
  apply small_bit_high; lia.
Qed.

(** The five bits from bit 27 of a word whose tag is [t] shifted there and
    whose other parts have no bit from 27 on. *)
Lemma type_tag_extract t w :
  0 ≤ t < 32 →
  (∀ n, 0 ≤ n < 5 → Z.testbit w (n + 27) = Z.testbit t n) →
  Z.shiftr (to_uint32 w) 27 = t.
Proof.
  intros Ht Hw. apply Z.bits_inj'. intros n Hn.
  rewrite Z.shiftr_spec by done.
  destruct (decide (n < 5)) as [Hlt|Hge].
  - unfold to_uint32. rewrite Z.mod_pow2_bits_low by lia. apply Hw. lia.
  - unfold to_uint32. rewrite Z.mod_pow2_bits_high by lia.
    symmetry. apply small_bit_high; lia.
Qed.

(** X7.  Decoding the type tag.  Suppose the sensor-type constant of an
    encoder is a five-bit tag [t] shifted to bit 27, its other constants
    are below [2 ^ 27], and (for the thermistor and the RTD) the
    sense-channel field ends below bit 27.  Then the top five bits of the
    word passed to [assign_channel] are [t]; and the low 27 bits of the
    sense-resistor word are the resistance constant. *)
Theorem encoders_type_tag self t :
  0 ≤ t < 32 →
  (SENSOR_TYPE__SENSE_RESISTOR = Z.shiftl t 27 →
   0 ≤ SENSE_RESISTOR_1K < 2 ^ 27 →
   Z.shiftr sense_resistor_data 27 = t
   ∧ Z.land sense_resistor_data (Z.ones 27) = SENSE_RESISTOR_1K)
  ∧ (SENSOR_TYPE__THERMISTOR_44006_10K_25C = Z.shiftl t 27 →
     Forall (λ constant, 0 ≤ constant < 2 ^ 27)
       [ THERMISTOR_DIFFERENTIAL;
         THERMISTOR_EXCITATION_MODE__SHARING_NO_ROTATION;
         THERMISTOR_EXCITATION_CURRENT__AUTORANGE ] →
     0 ≤ THERMISTOR_RSENSE_CHANNEL_LSB →
     THERMISTOR_RSENSE_CHANNEL_LSB + 5 ≤ 27 →
     (_therm_sense_channel self ≤ 31)%nat →
     Z.shiftr (thermistor_data self) 27 = t)
  ∧ (SENSOR_TYPE__RTD_PT_100 = Z.shiftl t 27 →
     Forall (λ constant, 0 ≤ constant < 2 ^ 27)
       [ RTD_NUM_WIRES__2_WIRE; RTD_EXCITATION_MODE__NO_ROTATION_SHARING;
         RTD_EXCITATION_CURRENT__50UA; RTD_STANDARD__AMERICAN ] →
     0 ≤ RTD_RSENSE_CHANNEL_LSB → RTD_RSENSE_CHANNEL_LSB + 5 ≤ 27 →
     (_rtd_sense_channel self ≤ 31)%nat →
     Z.shiftr (rtd_data self) 27 = t).
Proof.
  intros Ht. split_and!.
  - intros Htag Hres. split.
    + apply type_tag_extract; [done|]. intros n Hn.
      rewrite Z.lor_spec, Htag, Z.shiftl_spec by lia.
      rewrite (bit_above_bound SENSE_RESISTOR_1K 27) by (done || lia).
      rewrite orb_false_r. f_equal. lia.
    + apply Z.bits_inj'. intros n Hn. rewrite Z.land_spec.
      destruct (decide (n < 27)) as [Hlt|Hge].
      * rewrite Z.ones_spec_low, andb_true_r by lia.
        unfold sense_resistor_data, to_uint32.
        rewrite Z.mod_pow2_bits_low, Z.lor_spec, Htag by lia.
        by rewrite Z.shiftl_spec_low by lia.
      * rewrite Z.ones_spec_high, andb_false_r by lia.
        symmetry. apply (bit_above_bound _ 27); (done || lia).
  - intros Htag Hrest Hlsb Hfit Hr.
    apply Forall_cons in Hrest as [H1 Hrest].
    apply Forall_cons in Hrest as [H2 Hrest].
    apply Forall_cons in Hrest as [H3 _].
    apply type_tag_extract; [done|]. intros n Hn.
    rewrite !Z.lor_spec, Htag, (Z.shiftl_spec t) by lia.
    rewrite shifted_channel_bit by (done || lia).
    rewrite !(bit_above_bound _ 27 (n + 27)) by (done || lia).
    rewrite !orb_false_r. f_equal. lia.
  - intros Htag Hrest Hlsb Hfit Hr.
    apply Forall_cons in Hrest as [H1 Hrest].
    apply Forall_cons in Hrest as [H2 Hrest].
    apply Forall_cons in Hrest as [H3 Hrest].
    apply Forall_cons in Hrest as [H4 _].
    apply type_tag_extract; [done|]. intros n Hn.
    rewrite !Z.lor_spec, Htag, (Z.shiftl_spec t) by lia.
    rewrite shifted_channel_bit by (done || lia).
    rewrite !(bit_above_bound _ 27 (n + 27)) by (done || lia).
    rewrite !orb_false_r. f_equal. lia.
Qed.

(** ** [MeasureAllChannels] *)

Lemma same_wiring_refl self : same_wiring self self.
Proof. by repeat split. Qed.

Lemma same_wiring_trans self1 self2 self3 :
  same_wiring self1 self2 → same_wiring self2 self3 → same_wiring self1 self3.
Proof.
  unfold same_wiring. intros (?&?&?&?&?&?&?) (?&?&?&?&?&?&?).
  repeat split; congruence.
Qed.

Lemma same_wiring_well_sized self self' :
  same_wiring self self' → well_sized self → well_sized self'.
Proof.
  unfold same_wiring, well_sized. intros (Ha&_&_&_&_&_&Ht) [? ?].
  split; congruence.
Qed.

Lemma measure_step_Done fuel c rest self tr temp self1 tr1 :
  MeasureChannel dev (2 + fuel) c self tr = Done temp self1 tr1 →
  for_each (c :: rest) (λ channel, MeasureChannel dev (2 + fuel) channel;;
                                   mret tt) self tr
  = for_each rest (λ channel, MeasureChannel dev (2 + fuel) channel;;
                              mret tt) self1 tr1.
Proof.
  intros H. cbn [for_each]. erewrite bind_Done; [reflexivity|].
  by erewrite bind_Done by exact H.
Qed.

Lemma measure_step_Hang fuel c rest self tr self1 tr1 :
  MeasureChannel dev (2 + fuel) c self tr = Hang self1 tr1 →
  for_each (c :: rest) (λ channel, MeasureChannel dev (2 + fuel) channel;;
                                   mret tt) self tr
  = Hang self1 tr1.
Proof. intros H. cbn [for_each]. by do 2 apply bind_Hang. Qed.

(** The loop of [MeasureAllChannels] over any list of distinct channels. *)
Lemma measure_loop fuel l : ∀ self tr,
  well_sized self → Forall (λ c : nat, (c ≤ 20)%nat) l → NoDup l →
  match for_each l (λ channel, MeasureChannel dev (2 + fuel) channel;;
                               mret tt) self tr with
  | Done _ self' tr' =>
      same_wiring self self'
      ∧ _measurement_finished self' = _measurement_finished self
      ∧ _sleeping self' = match l with [] => _sleeping self | _ => false end
      ∧ (∀ d : nat, d ∉ l →
           channel_temperatures self' !! d = channel_temperatures self !! d)
      ∧ (∀ c : nat, c ∈ l → ¬ measures_temperature self c →
           channel_temperatures self' !! c = Some TEMPERATURE_ERROR)
      ∧ (∀ c : nat, c ∈ l → measures_temperature self c →
           ∃ tr0, tr0 `prefix_of` tr'
                  ∧ last tr0 = Some (measure_call self c)
                  ∧ measure_channel_reply dev tr0
                    = channel_temperatures self' !! c)
      ∧ tr' = tr ++ match l with [] => [] | _ => wake_calls self end
                 ++ map (measure_call self)
                      (filter (measures_temperature self) l)
  | Hang self' tr' =>
      same_wiring self self' ∧ tr `prefix_of` tr'
      ∧ measure_channel_reply dev tr' = None
  | Fault _ | OutOfFuel => False
  end.
Proof.
  induction l as [|c rest IH]; intros self tr Hw Hl Hnd.
  - cbn [for_each]. unfold mret, M_ret.
    split_and!; try done; try apply same_wiring_refl;
      try (intros c Hc; by apply elem_of_nil in Hc).
    by rewrite !app_nil_r.
  - apply Forall_cons in Hl as [Hc Hrest]. apply NoDup_cons in Hnd as [Hnotin Hnd].
    assert (Hlen : (c < length (channel_temperatures self))%nat)
      by (destruct Hw as [_ ->]; unfold TABLE_SIZE; lia).
    destruct (well_sized_lookup self c Hw Hc) as [a Ha].
    destruct (decide (measures_temperature self c)) as [Hm|Hm].
    + assert (Hsup : a = THERMISTOR_44006 ∨ a = RTD_PT_100)
        by (destruct Hm as [Hm|Hm]; rewrite Ha in Hm; inversion Hm; auto).
      pose proof (MeasureChannel_measured dev fuel c self tr a Hw Hc Ha Hsup)
        as Hrun.
      destruct (measure_channel_reply dev
                  (tr ++ wake_calls self ++ [measure_call self c]))
        as [temp|] eqn:Hreply.
      * rewrite (measure_step_Done _ _ _ _ _ _ _ _ Hrun).
        set (self1 := set_channel_temperatures
                        (<[c := temp]> (channel_temperatures self))
                        (set_sleeping false self)) in *.
        set (tr1 := tr ++ wake_calls self ++ [measure_call self c]) in *.
        assert (Hw1 : well_sized self1)
          by (destruct Hw; split; subst self1; fields;
              rewrite ?length_insert; done).
        specialize (IH self1 tr1 Hw1 Hrest Hnd).
        destruct (for_each rest _ self1 tr1) as [[] self' tr'|?|self' tr'|];
          [|done| |done].
        -- destruct IH as (Hsame & Hflag & Hsl & Hother & Herr & Hval & Htr).
           assert (Htr' : tr' = tr1 ++ map (measure_call self)
                                  (filter (measures_temperature self) rest))
             by (rewrite Htr; destruct rest; reflexivity).
           split_and!.
           ++ eapply same_wiring_trans; [|exact Hsame].
              subst self1. repeat split. fields. by rewrite length_insert.
           ++ by rewrite Hflag.
           ++ rewrite Hsl. by destruct rest.
           ++ intros d Hd. apply not_elem_of_cons in Hd as [Hdc Hd].
              rewrite (Hother d Hd). subst self1. fields.
              by apply list_lookup_insert_ne.
           ++ intros c' Hc' Hm'. apply elem_of_cons in Hc' as [->|Hc'];
                [done|]. by apply Herr.
           ++ intros c' Hc' Hm'. apply elem_of_cons in Hc' as [->|Hc'].
              ** exists tr1. split; [rewrite Htr'; by apply prefix_app_r|].
                 split; [subst tr1; by rewrite !app_assoc, last_snoc|].
                 rewrite (Hother c Hnotin). subst self1 tr1. fields.
                 rewrite Hreply. symmetry. by apply list_lookup_insert_eq.
              ** by apply Hval.
           ++ rewrite Htr'. subst tr1. rewrite filter_cons_True by done.
              cbn [map]. by rewrite <- !app_assoc.
        -- destruct IH as (Hsame & Hpre & Hnone). split_and!; [|..|done].
           ++ eapply same_wiring_trans; [|exact Hsame].
              subst self1. repeat split. fields. by rewrite length_insert.
           ++ etrans; [|exact Hpre]. subst tr1. by apply prefix_app_r.
      * rewrite (measure_step_Hang _ _ _ _ _ _ _ Hrun). split_and!.
        -- by repeat split.
        -- by apply prefix_app_r.
        -- done.
    + assert (H2 : a ≠ THERMISTOR_44006) by (intros ->; apply Hm; by left).
      assert (H3 : a ≠ RTD_PT_100) by (intros ->; apply Hm; by right).
      pose proof (MeasureChannel_not_measured dev fuel c self tr a
                    Hw Hc Ha H2 H3) as Hrun.
      rewrite (measure_step_Done _ _ _ _ _ _ _ _ Hrun).
      set (self1 := set_channel_temperatures
                      (<[c := TEMPERATURE_ERROR]> (channel_temperatures self))
                      (set_sleeping false self)) in *.
      set (tr1 := tr ++ wake_calls self) in *.
      assert (Hw1 : well_sized self1)
        by (destruct Hw; split; subst self1; fields;
            rewrite ?length_insert; done).
      specialize (IH self1 tr1 Hw1 Hrest Hnd).
      destruct (for_each rest _ self1 tr1) as [[] self' tr'|?|self' tr'|];
        [|done| |done].
      * destruct IH as (Hsame & Hflag & Hsl & Hother & Herr & Hval & Htr).
        assert (Htr' : tr' = tr1 ++ map (measure_call self)
                               (filter (measures_temperature self) rest))
          by (rewrite Htr; destruct rest; reflexivity).
        split_and!.
        -- eapply same_wiring_trans; [|exact Hsame].
           subst self1. repeat split. fields. by rewrite length_insert.
        -- by rewrite Hflag.
        -- rewrite Hsl. by destruct rest.
        -- intros d Hd. apply not_elem_of_cons in Hd as [Hdc Hd].
           rewrite (Hother d Hd). subst self1. fields.
           by apply list_lookup_insert_ne.
        -- intros c' Hc' Hm'. apply elem_of_cons in Hc' as [->|Hc'];
             [|by apply Herr].
           rewrite (Hother c Hnotin). subst self1. fields.
           by apply list_lookup_insert_eq.
        -- intros c' Hc' Hm'. apply elem_of_cons in Hc' as [->|Hc'];
             [done|]. by apply Hval.
        -- rewrite Htr'. subst tr1. rewrite filter_cons_False by done.
           by rewrite <- !app_assoc.
      * destruct IH as (Hsame & Hpre & Hnone). split_and!; [|..|done].
        -- eapply same_wiring_trans; [|exact Hsame].
           subst self1. repeat split. fields. by rewrite length_insert.
        -- etrans; [|exact Hpre]. subst tr1. by apply prefix_app_r.
Qed.

Lemma channels_1_to_20 :
  Forall (λ c : nat, (c ≤ 20)%nat) (seq 1 20) ∧ NoDup (seq 1 20).
Proof.
  split; [|apply NoDup_seq]. apply Forall_forall. intros c Hc.
  apply elem_of_seq in Hc. lia.
Qed.


Lemma measure_loop_stuck fuel l : ∀ self tr c0 others,
  well_sized self → Forall (λ c : nat, (c ≤ 20)%nat) l →
  filter (measures_temperature self) l = c0 :: others →
  measure_channel_reply dev (tr ++ wake_calls self ++ [measure_call self c0])
  = None →
  ∃ self',
    for_each l (λ channel, MeasureChannel dev (2 + fuel) channel;; mret tt)
      self tr
    = Hang self' (tr ++ wake_calls self ++ [measure_call self c0])
    ∧ same_wiring self self'.
Proof.
  induction l as [|c rest IH]; intros self tr c0 others Hw Hl Hfilter Hnone;
    [done|].
  apply Forall_cons in Hl as [Hc Hrest].
  destruct (well_sized_lookup self c Hw Hc) as [a Ha].
  destruct (decide (measures_temperature self c)) as [Hm|Hm].
  - rewrite filter_cons_True in Hfilter by done.
    injection Hfilter as <- _.
    assert (Hsup : a = THERMISTOR_44006 ∨ a = RTD_PT_100)
      by (destruct Hm as [Hm|Hm]; rewrite Ha in Hm; inversion Hm; auto).
    pose proof (MeasureChannel_measured dev fuel c self tr a Hw Hc Ha Hsup)
      as Hrun.
    rewrite Hnone in Hrun.
    exists (set_sleeping false self).
    split; [by apply measure_step_Hang|by repeat split].
  - rewrite filter_cons_False in Hfilter by done.
    assert (H2 : a ≠ THERMISTOR_44006) by (intros ->; apply Hm; by left).
    assert (H3 : a ≠ RTD_PT_100) by (intros ->; apply Hm; by right).
    pose proof (MeasureChannel_not_measured dev fuel c self tr a
                  Hw Hc Ha H2 H3) as Hrun.
    rewrite (measure_step_Done _ _ _ _ _ _ _ _ Hrun).
    set (self1 := set_channel_temperatures
                    (<[c := TEMPERATURE_ERROR]> (channel_temperatures self))
                    (set_sleeping false self)) in *.
    assert (Hw1 : well_sized self1)
      by (destruct Hw; split; subst self1; fields;
          rewrite ?length_insert; done).
    destruct (IH self1 (tr ++ wake_calls self) c0 others Hw1 Hrest Hfilter)
      as (self' & Hhang & Hsame).
    { change (wake_calls self1) with (@nil Call).
      change (measure_call self1 c0) with (measure_call self c0).
      by rewrite <- app_assoc. }
    exists self'. split.
    + rewrite Hhang. change (wake_calls self1) with (@nil Call).
      change (measure_call self1 c0) with (measure_call self c0).
      by rewrite <- app_assoc.
    + eapply same_wiring_trans; [|exact Hsame].
      subst self1. repeat split. fields. by rewrite length_insert.
Qed.

(** X9.  [MeasureAllChannels] has no way past a conversion that does not
    finish.  If the blocking helper never returns for the first thermistor
    or RTD channel among 1..20, the method never returns, that call is the
    last thing it did, and no later channel is measured. *)
Theorem MeasureAllChannels_stuck fuel self tr (c0 : nat) others :
  well_sized self →
  filter (measures_temperature self) (seq 1 20) = c0 :: others →
  measure_channel_reply dev (tr ++ wake_calls self ++ [measure_call self c0])
  = None →
  ∃ self',
    MeasureAllChannels dev (2 + fuel) self tr
    = Hang self' (tr ++ wake_calls self ++ [measure_call self c0])
    ∧ same_wiring self self'.
Proof.
  intros Hw Hfilter Hnone. destruct channels_1_to_20 as [Hl _].
  by apply (measure_loop_stuck fuel (seq 1 20) self tr c0 others).
Qed.

(** ** Sequences of method calls *)

Lemma keeps_bind {A B} (m : M A) (f : A → M B) self tr :
  outcome_keeps_wiring self tr (m self tr) →
  (∀ a self1 tr1, same_wiring self self1 →
     outcome_keeps_wiring self1 tr1 (f a self1 tr1)) →
  outcome_keeps_wiring self tr ((m ≫= f) self tr).
Proof.
  unfold mbind, M_bind. destruct (m self tr) as [a self1 tr1| | |]; try done.
  intros [Hsame Hpre] Hf. specialize (Hf a self1 tr1 Hsame).
  destruct (f a self1 tr1); try done; destruct Hf as [Hsame' Hpre'];
    (split; [by eapply same_wiring_trans|by etrans]).
Qed.

Lemma keeps_ret {A} (a : A) self tr :
  outcome_keeps_wiring self tr ((mret a : M A) self tr).
Proof. split; [apply same_wiring_refl|done]. Qed.

Lemma keeps_then_ret {A B} (m : M A) (g : A → B) self tr :
  outcome_keeps_wiring self tr (m self tr) →
  outcome_keeps_wiring self tr ((a ← m; mret (g a)) self tr).
Proof. intros H. apply keeps_bind; [done|]. intros. apply keeps_ret. Qed.

Lemma keeps_Done {A} (a : A) self self' tr added :
  same_wiring self self' →
  outcome_keeps_wiring self tr (Done a self' (tr ++ added)).
Proof. intros H. split; [done|by apply prefix_app_r]. Qed.

Lemma ReadMeasurementResult_run (c : nat) self tr :
  ReadMeasurementResult dev c self tr
  = if Z.testbit (transfer_byte_reply dev (tr ++ [status_read self])) 6
    then Done
           (get_result_reply dev
              (tr ++ [status_read self;
                      get_result (to_uint8 (_chip_select_pin self)) c
                        (to_uint8 TEMPERATURE)]))
           (set_measurement_finished false self)
           (tr ++ [status_read self;
                   get_result (to_uint8 (_chip_select_pin self)) c
                     (to_uint8 TEMPERATURE)])
    else Done TEMPERATURE_ERROR (set_measurement_finished false self)
           (tr ++ [status_read self]).
Proof.
  unfold ReadMeasurementResult.
  erewrite bind_Done by reflexivity.
  erewrite bind_Done by apply FinishedMeasurement_run.
  rewrite completion_bit. unfold status_reply.
  change (status_read (set_measurement_finished false self))
    with (status_read self).
  rewrite to_uint8_bit by lia.
  destruct (Z.testbit _ 6); cbn [negb]; run; fields;
    by rewrite <- ?app_assoc.
Qed.

Lemma MeasureChannel_keeps fuel (c : nat) self tr :
  well_sized self → (c ≤ 20)%nat →
  outcome_keeps_wiring self tr (MeasureChannel dev (2 + fuel) c self tr).
Proof.
  intros Hw Hc. destruct (well_sized_lookup self c Hw Hc) as [a Ha].
  destruct (decide (a = THERMISTOR_44006 ∨ a = RTD_PT_100)) as [Hm|Hm].
  - rewrite (MeasureChannel_measured dev fuel c self tr a) by done.
    destruct (measure_channel_reply dev _); (split; [|by apply prefix_app_r]);
      repeat split. fields. by rewrite length_insert.
  - rewrite (MeasureChannel_not_measured dev fuel c self tr a)
      by (try done; intros ->; apply Hm; auto).
    apply keeps_Done. repeat split. fields. by rewrite length_insert.
Qed.

Lemma invoke_keeps fuel m self tr :
  well_sized self → channel_in_table m →
  outcome_keeps_wiring self tr (invoke dev (3 + fuel) m self tr).
Proof.
  intros Hw Hm.
  destruct m as [| | | | |c|c| |c|]; unfold invoke;
    first [apply (keeps_then_ret _ (λ _, no_value))|apply keeps_then_ret].
  - rewrite InitializeAndConfigure_run by done. by apply keeps_Done.
  - rewrite Sleep_run. by apply keeps_Done.
  - change (3 + fuel)%nat with (S (S (S fuel))).
    rewrite WakeUp_run by done. by apply keeps_Done.
  - by apply keeps_Done.
  - destruct channels_1_to_20 as [Hl Hnd].
    pose proof (measure_loop (S fuel) (seq 1 20) self tr Hw Hl Hnd) as Hloop.
    unfold MeasureAllChannels. change (3 + fuel)%nat with (2 + S fuel)%nat.
    destruct (for_each (seq 1 20) _ self tr)
      as [[] self' tr'|?|self' tr'|]; try done.
    + destruct Hloop as (Hsame & _ & _ & _ & _ & _ & ->).
      by apply keeps_Done.
    + by destruct Hloop as (Hsame & Hpre & _).
  - change (3 + fuel)%nat with (2 + S fuel)%nat. by apply MeasureChannel_keeps.
  - by apply keeps_Done.
  - by apply keeps_Done.
  - rewrite ReadMeasurementResult_run.
    destruct (Z.testbit _ 6); by apply keeps_Done.
  - split; [by repeat split|done].
Qed.

(** X10.  No sequence of calls of the ten methods of [Method] changes
    the wiring ([ReadFullChannelData] and [connect] are outside [Method]
    and outside this statement).  Start from an object with 21-element
    tables and let every argument of [MeasureChannel] be at most 20.  Then
    the sequence never indexes a table outside its bounds, and where it
    ends (or is stuck in the blocking helper) [channel_assignments], both
    sense channels, the port and both pins are as at the start,
    [channel_temperatures] still has 21 elements, and the calls made before
    are still the beginning of the trace. *)
Theorem methods_keep_wiring fuel ms self tr :
  well_sized self → Forall channel_in_table ms →
  outcome_keeps_wiring self tr (invoke_all dev (3 + fuel) ms self tr).
Proof.
  intros Hw Hms. revert self tr Hw.
  induction Hms as [|m rest Hm _ IH]; intros self tr Hw.
  - apply keeps_ret.
  - cbn [invoke_all]. apply keeps_bind; [by apply invoke_keeps|].
    intros v self1 tr1 Hsame. apply keeps_then_ret, IH.
    by apply (same_wiring_well_sized self).
Qed.

Lemma set_measurement_finished_id self :
  set_measurement_finished (_measurement_finished self) self = self.
Proof. by destruct self. Qed.

Lemma invoke_non_blocking fuel m self tr :
  non_blocking m →
  ∃ v flag added,
    invoke dev fuel m self tr
    = Done v (set_measurement_finished flag self) (tr ++ added)
    ∧ Forall is_register_access added.
Proof.
  destruct m as [| | | | |c|c| |c|]; try done; intros _.
  - eexists _, (_measurement_finished self), _.
    rewrite set_measurement_finished_id. split; [reflexivity|].
    by repeat constructor.
  - exists no_value, false, [start_write self c].
    split; [reflexivity|]. by repeat constructor.
  - exists (bool_value (bool_decide (Z.land (status_reply dev self tr) 64 ≠ 0))),
      (_measurement_finished self), [status_read self].
    rewrite set_measurement_finished_id. split; [reflexivity|].
    by repeat constructor.
  - unfold invoke. pose proof (ReadMeasurementResult_run c self tr) as Hrun.
    destruct (Z.testbit _ 6); erewrite bind_Done by exact Hrun;
      (eexists _, false, _; split; [reflexivity|]; by repeat constructor).
  - exists no_value, true, []. rewrite app_nil_r. by split.
Qed.

(** X11.  The non-blocking methods leave everything but the flag alone.
    Any sequence of [StartMeasurement], [FinishedMeasurement],
    [ReadMeasurementResult], [CheckStatusReg] and [InterruptHandler] calls,
    with any channel arguments, returns; its only calls are register
    accesses ([transfer_byte] and [get_result]: no reset pulse, no
    assignment, no blocking measurement); and the object it leaves differs
    from the one it started on in [_measurement_finished] at most.  So a
    result read this way is not stored in [channel_temperatures], and a
    sleeping driver is not woken. *)
Theorem non_blocking_methods_frame fuel ms self tr :
  Forall non_blocking ms →
  ∃ vs flag added,
    invoke_all dev fuel ms self tr
    = Done vs (set_measurement_finished flag self) (tr ++ added)
    ∧ length vs = length ms
    ∧ Forall is_register_access added.
Proof.
  intros Hms. revert self tr.
  induction Hms as [|m rest Hm _ IH]; intros self tr.
  - exists [], (_measurement_finished self), [].
    rewrite set_measurement_finished_id, app_nil_r. by split.
  - destruct (invoke_non_blocking fuel m self tr Hm)
      as (v & flag & added & Hrun & Hadded).
    destruct (IH (set_measurement_finished flag self) (tr ++ added))
      as (vs & flag' & added' & Hrest & Hlen & Hadded').
    exists (v :: vs), flag', (added ++ added').
    split_and!.
    + cbn [invoke_all]. erewrite bind_Done by exact Hrun.
      erewrite bind_Done by exact Hrest.
      by rewrite <- app_assoc.
    + cbn [length]. by rewrite Hlen.
    + by apply Forall_app.
Qed.

(** ** The flag is never read *)

Lemma flag_blind_ret {A} (a : A) : flag_blind (mret a : M A).
Proof. intros self1 self2 tr H. cbn. by rewrite H. Qed.

Lemma flag_blind_bind {A B} (m : M A) (f : A → M B) :
  flag_blind m → (∀ a, flag_blind (f a)) → flag_blind (m ≫= f).
Proof.
  intros Hm Hf self1 self2 tr H. specialize (Hm self1 self2 tr H).
  unfold mbind, M_bind.
  destruct (m self1 tr) as [a1 s1 tr1| | |],
           (m self2 tr) as [a2 s2 tr2| | |];
    cbn [forget_flag] in Hm |- *; try discriminate; try congruence.
  assert (Ha : a1 = a2) by congruence.
  assert (Hs : set_measurement_finished false s1
               = set_measurement_finished false s2) by congruence.
  assert (Htr : tr1 = tr2) by congruence.
  subst. by apply Hf.
Qed.

Lemma flag_blind_gets {A} (f : LTC2983Manager → A) :
  (∀ self flag, f (set_measurement_finished flag self) = f self) →
  flag_blind (gets f).
Proof.
  intros Hf self1 self2 tr H. cbn.
  by rewrite <- (Hf self1 false), <- (Hf self2 false), H.
Qed.

Lemma flag_blind_modify (g : LTC2983Manager → LTC2983Manager) :
  (∀ self flag,
     set_measurement_finished false (g (set_measurement_finished flag self))
     = set_measurement_finished false (g self)) →
  flag_blind (modify g).
Proof.
  intros Hg self1 self2 tr H. cbn.
  by rewrite <- (Hg self1 false), <- (Hg self2 false), H.
Qed.

Lemma flag_blind_call c : flag_blind (call c).
Proof. intros self1 self2 tr H. cbn. by rewrite H. Qed.

Lemma flag_blind_out_of_fuel {A} : flag_blind (out_of_fuel : M A).
Proof. by intros self1 self2 tr H. Qed.

Lemma flag_blind_when cond (m : M unit) :
  flag_blind m → flag_blind (when cond m).
Proof. intros Hm. destruct cond; [done|apply flag_blind_ret]. Qed.

Lemma flag_blind_for_each l (body : nat → M unit) :
  (∀ c, flag_blind (body c)) → flag_blind (for_each l body).
Proof.
  intros Hbody. induction l as [|c rest IH]; cbn [for_each].
  - apply flag_blind_ret.
  - apply flag_blind_bind; [apply Hbody|by intros _].
Qed.

Lemma flag_blind_transfer_byte cs rw addr data :
  flag_blind (do_transfer_byte dev cs rw addr data).
Proof. intros self1 self2 tr H. cbn. by rewrite H. Qed.

Lemma flag_blind_measure_channel cs c out :
  flag_blind (do_measure_channel dev cs c out).
Proof.
  intros self1 self2 tr H. unfold do_measure_channel.
  destruct (measure_channel_reply dev _); cbn; by rewrite H.
Qed.

Lemma flag_blind_get_result cs c out :
  flag_blind (do_get_result dev cs c out).
Proof. intros self1 self2 tr H. cbn. by rewrite H. Qed.

Lemma flag_blind_read_assignment i : flag_blind (read_assignment i).
Proof.
  intros self1 self2 tr H. unfold read_assignment.
  pose proof (f_equal channel_assignments H) as Ha. cbn in Ha. rewrite Ha.
  destruct (channel_assignments self2 !! i); cbn; by rewrite ?H.
Qed.

Lemma flag_blind_write_temperature i v : flag_blind (write_temperature i v).
Proof.
  intros self1 self2 tr H. unfold write_temperature.
  pose proof (f_equal channel_temperatures H) as Ht. cbn in Ht. rewrite Ht.
  case_decide; [|done]. cbn [forget_flag]. f_equal.
  change (set_channel_temperatures
            (<[i := v]> (channel_temperatures self2))
            (set_measurement_finished false self1)
          = set_channel_temperatures
              (<[i := v]> (channel_temperatures self2))
              (set_measurement_finished false self2)).
  by rewrite H.
Qed.

Ltac blind :=
  repeat first
    [ apply flag_blind_ret
    | apply flag_blind_call
    | apply flag_blind_out_of_fuel
    | apply flag_blind_transfer_byte
    | apply flag_blind_measure_channel
    | apply flag_blind_get_result
    | apply flag_blind_read_assignment
    | apply flag_blind_write_temperature
    | apply flag_blind_gets; reflexivity
    | apply flag_blind_modify; reflexivity
    | apply flag_blind_when
    | apply flag_blind_for_each; intros ?
    | apply flag_blind_bind; [|intros ?]
    | case_decide
    | match goal with |- flag_blind (if ?b then _ else _) => destruct b end
    | assumption ].

Lemma flag_blind_configure_channel c : flag_blind (configure_channel c).
Proof.
  unfold configure_channel, AssignSenseResistor, AssignThermistor, AssignRTD,
    do_assign_channel. blind.
Qed.

Lemma flag_blind_Configure_WakeUp fuel :
  flag_blind (Configure dev fuel) ∧ flag_blind (WakeUp dev fuel).
Proof.
  induction fuel as [|fuel [IHc IHw]]; [split; apply flag_blind_out_of_fuel|].
  split.
  - rewrite Configure_S. blind; apply flag_blind_configure_channel.
  - rewrite WakeUp_S. blind.
Qed.

Lemma flag_blind_MeasureChannel fuel c :
  flag_blind (MeasureChannel dev fuel c).
Proof.
  unfold MeasureChannel. blind; apply flag_blind_Configure_WakeUp.
Qed.

Lemma flag_blind_invoke fuel m : flag_blind (invoke dev fuel m).
Proof.
  destruct m; unfold invoke, InitializeAndConfigure, Sleep, CheckStatusReg,
    MeasureAllChannels, StartMeasurement, FinishedMeasurement,
    ReadMeasurementResult, InterruptHandler; blind;
    first [apply flag_blind_Configure_WakeUp|apply flag_blind_MeasureChannel].
Qed.

(** X12.  None of the ten methods of [Method] reads
    [_measurement_finished] ([ReadFullChannelData] and [connect] are
    outside [Method] and outside this statement).  Run any sequence of
    these methods on two objects that differ in that flag only: the values
    returned, the calls made and every other member of the object come out
    the same, whether the sequence returns, is stuck in the blocking helper
    or faults.  So [InterruptHandler], which only sets the flag, cannot
    influence anything a caller can observe through these methods. *)
Theorem methods_ignore_flag fuel ms self tr flag :
  forget_flag
    (invoke_all dev fuel ms (set_measurement_finished flag self) tr)
  = forget_flag (invoke_all dev fuel ms self tr).
Proof.
  assert (Hall : flag_blind (invoke_all dev fuel ms)).
  { induction ms as [|m rest IH]; cbn [invoke_all]; [apply flag_blind_ret|].
    apply flag_blind_bind; [apply flag_blind_invoke|]. intros v.
    apply flag_blind_bind; [exact IH|]. intros vs. apply flag_blind_ret. }
  by apply Hall.
Qed.

(** ** From construction to the first configuration *)

Lemma flat_map_singletons {A B} (f : A → list B) (g : A → B)
    (P : A → Prop) `{∀ x, Decision (P x)} (l : list A) :
  (∀ x, x ∈ l → f x = if decide (P x) then [g x] else []) →
  flat_map f l = map g (filter P l).
Proof.
  induction l as [|x l IH]; intros Hf; [done|].
  cbn [flat_map]. rewrite Hf by apply list_elem_of_here.
  rewrite IH by (intros y Hy; apply Hf; by apply list_elem_of_further).
  case_decide.
  - by rewrite filter_cons_True.
  - by rewrite filter_cons_False.
Qed.

(** The assignment table the constructor leaves, read at a channel. *)
Lemma constructor_table_lookup (therm_sense_ch rtd_sense_ch x : nat) :
  (1 ≤ x ≤ 20)%nat →
  (if bool_decide (0 < rtd_sense_ch ∧ rtd_sense_ch < 21)%nat
   then <[rtd_sense_ch := SENSE_RESISTOR_1000]>
          (if bool_decide (0 < therm_sense_ch ∧ therm_sense_ch < 21)%nat
           then <[therm_sense_ch := SENSE_RESISTOR_1000]>
                  (replicate 21 UNUSED_CHANNEL)
           else replicate 21 UNUSED_CHANNEL)
   else (if bool_decide (0 < therm_sense_ch ∧ therm_sense_ch < 21)%nat
         then <[therm_sense_ch := SENSE_RESISTOR_1000]>
                (replicate 21 UNUSED_CHANNEL)
         else replicate 21 UNUSED_CHANNEL)) !! x
  = Some (if decide (x = therm_sense_ch ∨ x = rtd_sense_ch)
          then SENSE_RESISTOR_1000 else UNUSED_CHANNEL).
Proof.
  intros Hx.
  assert (Hrep : replicate 21 UNUSED_CHANNEL !! x = Some UNUSED_CHANNEL)
    by (apply lookup_replicate_2; lia).
  case_decide as Hd.
  - destruct Hd as [->| ->].
    + rewrite (bool_decide_eq_true_2 (0 < therm_sense_ch ∧ _)%nat) by lia.
      case_bool_decide.
      * destruct (decide (rtd_sense_ch = therm_sense_ch)) as [->|Hne].
        -- apply list_lookup_insert_eq.
           rewrite length_insert, length_replicate. lia.
        -- rewrite list_lookup_insert_ne by done.
           apply list_lookup_insert_eq. rewrite length_replicate. lia.
      * apply list_lookup_insert_eq. rewrite length_replicate. lia.
    + rewrite (bool_decide_eq_true_2 (0 < rtd_sense_ch ∧ _)%nat) by lia.
      apply list_lookup_insert_eq.
      case_bool_decide; rewrite ?length_insert, length_replicate; lia.
  - repeat case_bool_decide;
      rewrite ?list_lookup_insert_ne by (intros ->; apply Hd; auto); done.
Qed.

(** X13.  Construction followed by [InitializeAndConfigure].  Whatever the
    storage held and whatever the four parameters are, the two calls end;
    the calls are the port selection, the pin set-up, the start of SPI port
    0 and then one configuration pass on the new object; and that pass is
    the two device-wide writes followed by a sense-resistor assignment for
    each channel of 1..20 that equals one of the two sense parameters, and
    nothing else.  The driver is awake afterwards. *)
Theorem constructor_then_InitializeAndConfigure fuel cs_pin rst_pin
    (therm_sense_ch rtd_sense_ch : nat) raw tr :
  well_sized raw →
  ∃ self,
    (LTC2983Manager_constructor cs_pin rst_pin therm_sense_ch rtd_sense_ch;;
     InitializeAndConfigure dev (3 + fuel)) raw tr
    = Done tt self
        (tr ++ [ setSpiSup 0;
                 pinMode cs_pin OUTPUT; pinMode rst_pin OUTPUT;
                 digitalWrite rst_pin HIGH; delay 100;
                 SPI_begin 0; SPI_setClockDivider 0; delay 100 ]
            ++ device_wide_writes self
            ++ map (λ c, assign_channel (to_uint8 cs_pin) c
                           sense_resistor_data)
                 (filter (λ c, c = therm_sense_ch ∨ c = rtd_sense_ch)
                    (seq 1 20)))
    ∧ _chip_select_pin self = cs_pin
    ∧ _sleeping self = false
    ∧ well_sized self.
Proof.
  intros Hw.
  pose proof (constructor_run cs_pin rst_pin therm_sense_ch rtd_sense_ch
                raw tr Hw) as Hctor.
  cbv zeta in Hctor.
  match type of Hctor with _ = Done tt ?s _ => set (self := s) in * end.
  assert (Hw' : well_sized self).
  { subst self. split; fields; unfold TABLE_SIZE;
      repeat case_bool_decide;
      by rewrite ?length_insert, length_replicate. }
  exists self. split_and!; [|done..].
  erewrite bind_Done by exact Hctor.
  rewrite InitializeAndConfigure_run by done.
  change (set_sleeping false self) with self.
  change (wake_calls self) with (@nil Call).
  change (initialization_calls self)
    with [ pinMode cs_pin OUTPUT; pinMode rst_pin OUTPUT;
           digitalWrite rst_pin HIGH; delay 100;
           SPI_begin 0; SPI_setClockDivider 0; delay 100 ].
  unfold configuration_calls.
  rewrite (flat_map_singletons (channel_calls self)
             (λ c, assign_channel (to_uint8 cs_pin) c sense_resistor_data)
             (λ c, c = therm_sense_ch ∨ c = rtd_sense_ch)).
  - f_equal. by rewrite <- !app_assoc.
  - intros x Hx%elem_of_seq. unfold channel_calls. subst self. fields.
    rewrite constructor_table_lookup by lia.
    by repeat case_decide.
Qed.

(** ** Two more compositions *)

(** X14.  [WakeUp] has no guard: on any object, asleep or awake, it pulses
    the reset line and makes exactly one configuration pass, and the driver
    is awake afterwards.  Two calls in a row do all of it twice and leave
    the same object as one call. *)
Theorem WakeUp_unconditional fuel self tr :
  well_sized self →
  WakeUp dev (2 + fuel) self tr
  = Done tt (set_sleeping false self)
      (tr ++ reset_pulse self ++ configuration_calls self)
  ∧ (WakeUp dev (2 + fuel);; WakeUp dev (2 + fuel)) self tr
    = Done tt (set_sleeping false self)
        (tr ++ (reset_pulse self ++ configuration_calls self)
            ++ (reset_pulse self ++ configuration_calls self)).
Proof.
  intros Hw. change (2 + fuel)%nat with (S (S fuel)).
  split; [by apply WakeUp_run|].
  erewrite bind_Done by (by apply WakeUp_run).
  rewrite WakeUp_run by done.
  change (set_sleeping false (set_sleeping false self))
    with (set_sleeping false self).
  change (reset_pulse (set_sleeping false self)) with (reset_pulse self).
  change (configuration_calls (set_sleeping false self))
    with (configuration_calls self).
  by rewrite <- !app_assoc.
Qed.

(** X15.  The non-blocking triad in sequence.  [StartMeasurement],
    [FinishedMeasurement] and [ReadMeasurementResult] on the same channel
    make four calls: the command write, a status read, a second status
    read and, only if that second read has bit 6 set, the result read.
    What [FinishedMeasurement] returned plays no part: the value of
    [ReadMeasurementResult] is decided by its own status read, and it is
    [TEMPERATURE_ERROR] when that read has bit 6 clear even if
    [FinishedMeasurement] has just returned true. *)
Theorem non_blocking_triad (c : nat) self tr :
  let polled := tr ++ [start_write self c; status_read self] in
  let polled_again := polled ++ [status_read self] in
  let result_read :=
    polled_again ++ [get_result (to_uint8 (_chip_select_pin self)) c
                       (to_uint8 TEMPERATURE)] in
  (StartMeasurement dev c;;
   finished ← FinishedMeasurement dev;
   temp ← ReadMeasurementResult dev c;
   mret (finished, temp)) self tr
  = if Z.testbit (transfer_byte_reply dev polled_again) 6
    then Done (Z.testbit (transfer_byte_reply dev polled) 6,
               get_result_reply dev result_read)
           (set_measurement_finished false self) result_read
    else Done (Z.testbit (transfer_byte_reply dev polled) 6,
               TEMPERATURE_ERROR)
           (set_measurement_finished false self) polled_again.
Proof.
  intros polled polled_again result_read.
  erewrite bind_Done by reflexivity.
  erewrite bind_Done
    by (rewrite FinishedMeasurement_run, completion_bit_of_reply;
        reflexivity).
  change (status_read (set_measurement_finished false self))
    with (status_read self).
  pose proof (ReadMeasurementResult_run c
                (set_measurement_finished false self)
                ((tr ++ [start_write self c]) ++ [status_read self]))
    as Hread.
  change (status_read (set_measurement_finished false self))
    with (status_read self) in Hread.
  change (_chip_select_pin (set_measurement_finished false self))
    with (_chip_select_pin self) in Hread.
  change (set_measurement_finished false
            (set_measurement_finished false self))
    with (set_measurement_finished false self) in Hread.
  subst result_read polled_again polled.
  replace (tr ++ [start_write self c; status_read self])
    with ((tr ++ [start_write self c]) ++ [status_read self])
    by (by rewrite <- app_assoc).
  destruct (Z.testbit (transfer_byte_reply dev
              (((tr ++ [start_write self c]) ++ [status_read self])
                 ++ [status_read self])) 6);
    erewrite bind_Done by exact Hread; cbn [mret M_ret];
    unfold mret, M_ret; by rewrite <- ?app_assoc.
Qed.

End Further.

(** ** The theorems at the sample boards *)

#[local] Existing Instance LTC2983_datasheet.

Ltac concrete := repeat split; try reflexivity; try (compute; discriminate).

Lemma Configure_sequence_witness :
  well_sized asleep_board
  ∧ Configure busy_device 3 asleep_board []
    = Done tt board
        [ digitalWrite 9 LOW; delay 100; digitalWrite 9 HIGH; delay 200;
          transfer_byte 10 2 0xF0 0; transfer_byte 10 2 0xFF 0;
          assign_channel 10 5 0xE80FA000; assign_channel 10 7 0xB1560000;
          transfer_byte 10 2 0xF0 0; transfer_byte 10 2 0xFF 0;
          assign_channel 10 5 0xE80FA000; assign_channel 10 7 0xB1560000 ].
Proof.
  assert (Hw : well_sized asleep_board) by concrete.
  split; [exact Hw|].
  exact (proj1 (Configure_sequence busy_device 0 asleep_board [] Hw)).
Defined.

Lemma ReadMeasurementResult_not_ready_witness :
  Z.land (status_reply busy_device board []) 0x40 = 0
  ∧ ReadMeasurementResult busy_device 7 board []
    = Done TEMPERATURE_ERROR board [transfer_byte 10 3 0 0].
Proof.
  split; [reflexivity|].
  exact (ReadMeasurementResult_not_ready busy_device 7 board [] eq_refl).
Defined.

(** The claim C1 as written fails: with the completion bit clear and the
    flag set by [InterruptHandler], the premature call still reads the
    status register and clears the flag. *)
Lemma ReadMeasurementResult_not_ready_counterexample :
  Z.land (status_reply busy_device (set_measurement_finished true board) [])
    0x40 = 0
  ∧ ReadMeasurementResult busy_device 7
      (set_measurement_finished true board) []
    = Done TEMPERATURE_ERROR board [transfer_byte 10 3 0 0]
  ∧ ¬ (∃ self' tr',
         ReadMeasurementResult busy_device 7
           (set_measurement_finished true board) []
         = Done TEMPERATURE_ERROR self' tr'
         ∧ filter is_bus_transaction tr' = [])
  ∧ ¬ (∃ tr',
         ReadMeasurementResult busy_device 7
           (set_measurement_finished true board) []
         = Done TEMPERATURE_ERROR (set_measurement_finished true board) tr').
Proof.
  split; [reflexivity|]. split; [reflexivity|]. split.
  - intros (self' & tr' & Hrun & Hnone).
    vm_compute in Hrun. injection Hrun as _ <-. discriminate Hnone.
  - intros (tr' & Hrun). vm_compute in Hrun. discriminate Hrun.
Qed.

Lemma MeasureChannel_unsupported_witness :
  well_sized board ∧ (1 ≤ 5 ≤ 20)%nat
  ∧ channel_assignments board !! 5%nat = Some SENSE_RESISTOR_1000
  ∧ SENSE_RESISTOR_1000 ≠ THERMISTOR_44006 ∧ SENSE_RESISTOR_1000 ≠ RTD_PT_100
  ∧ MeasureChannel ready_device 2 5 board []
    = Done TEMPERATURE_ERROR board [].
Proof.
  assert (Hw : well_sized board) by concrete.
  assert (Hc : (1 ≤ 5 ≤ 20)%nat) by lia.
  assert (H2 : SENSE_RESISTOR_1000 ≠ THERMISTOR_44006) by discriminate.
  assert (H3 : SENSE_RESISTOR_1000 ≠ RTD_PT_100) by discriminate.
  split; [exact Hw|]. split; [exact Hc|]. split; [reflexivity|].
  split; [exact H2|]. split; [exact H3|].
  exact (proj1 (MeasureChannel_unsupported ready_device 0 5 board []
                  SENSE_RESISTOR_1000 Hw Hc eq_refl H2 H3)).
Defined.

(** The claim C2 as written fails when the driver is asleep: the
    unsupported channel 5 still gets [TEMPERATURE_ERROR], but the implicit
    wake-up has put four transactions on the bus. *)
Lemma MeasureChannel_unsupported_counterexample :
  channel_assignments asleep_board !! 5%nat = Some SENSE_RESISTOR_1000
  ∧ MeasureChannel ready_device 2 5 asleep_board []
    = Done TEMPERATURE_ERROR board
        [ digitalWrite 9 LOW; delay 100; digitalWrite 9 HIGH; delay 200;
          transfer_byte 10 2 0xF0 0; transfer_byte 10 2 0xFF 0;
          assign_channel 10 5 0xE80FA000; assign_channel 10 7 0xB1560000 ]
  ∧ ¬ (∃ self' tr',
         MeasureChannel ready_device 2 5 asleep_board []
         = Done TEMPERATURE_ERROR self' tr'
         ∧ filter is_bus_transaction tr' = []).
Proof.
  split; [reflexivity|]. split; [reflexivity|].
  intros (self' & tr' & Hrun & Hnone).
  vm_compute in Hrun. injection Hrun as _ <-. discriminate Hnone.
Qed.

Lemma MeasureChannel_implicit_WakeUp_witness :
  well_sized asleep_board ∧ _sleeping asleep_board = true
  ∧ Sleep busy_device board []
    = Done tt asleep_board [transfer_byte 10 2 0 0x97]
  ∧ MeasureChannel ready_device 2 7 asleep_board [transfer_byte 10 2 0 0x97]
    = MeasureChannel ready_device 2 7 board
        [ transfer_byte 10 2 0 0x97;
          digitalWrite 9 LOW; delay 100; digitalWrite 9 HIGH; delay 200;
          transfer_byte 10 2 0xF0 0; transfer_byte 10 2 0xFF 0;
          assign_channel 10 5 0xE80FA000; assign_channel 10 7 0xB1560000 ].
Proof.
  assert (Hw : well_sized asleep_board) by concrete.
  split; [exact Hw|]. split; [reflexivity|]. split; [reflexivity|].
  exact (proj1 (proj2 (MeasureChannel_implicit_WakeUp ready_device 0 7
                         asleep_board [transfer_byte 10 2 0 0x97]
                         Hw eq_refl))).
Defined.

Lemma constructor_initial_state_witness :
  well_sized raw_storage
  ∧ ∃ self,
      LTC2983Manager_constructor 10 9 5 0 raw_storage []
      = Done tt self [setSpiSup 0]
      ∧ channel_temperatures self = replicate 21 TEMPERATURE_ERROR
      ∧ _therm_sense_channel self = 5%nat
      ∧ channel_assignments self !! 5%nat = Some SENSE_RESISTOR_1000
      ∧ _rtd_sense_channel self = 0%nat
      ∧ channel_assignments self !! 0%nat = Some UNUSED_CHANNEL.
Proof.
  assert (Hw : well_sized raw_storage) by concrete.
  split; [exact Hw|].
  destruct (constructor_initial_state 10 9 5 0 raw_storage [] Hw)
    as (self & Hrun & _ & HT & Ht & _ & _ & Hr & Hrest & _).
  exists self. split; [exact Hrun|]. split; [exact HT|].
  destruct (Ht ltac:(lia)) as [Ht1 Ht2].
  split; [exact Ht1|]. split; [exact Ht2|].
  split; [apply Hr; lia|]. apply Hrest; lia.
Defined.

Lemma datasheet_layouts : thermistor_layout ∧ rtd_layout.
Proof.
  split; (split; [by compute|]; split; [by compute|]; repeat constructor;
          try reflexivity; compute; discriminate).
Defined.

Ltac others_clear :=
  intros [|[|[|[|[|[|j]]]]]] other Hj Hlook; try congruence;
  cbn in Hlook; try discriminate Hlook; injection Hlook as <-; reflexivity.

Lemma encoders_embed_sense_channel_witness :
  thermistor_layout ∧ rtd_layout
  ∧ (1 ≤ _therm_sense_channel rtd_board ≤ 20)%nat
  ∧ (1 ≤ _rtd_sense_channel rtd_board ≤ 20)%nat
  ∧ thermistor_data rtd_board = 0xB1560000
  ∧ Z.land (Z.shiftr (thermistor_data rtd_board) 22) 31 = 5
  ∧ rtd_data rtd_board = 0x61851000
  ∧ Z.land (Z.shiftr (rtd_data rtd_board) 22) 31 = 6
  ∧ field 27 5 (thermistor_data rtd_board) = 0x16
  ∧ field 21 1 (thermistor_data rtd_board) = 0
  ∧ field 19 2 (thermistor_data rtd_board) = 2
  ∧ field 15 4 (thermistor_data rtd_board) = 0xC
  ∧ field 27 5 (rtd_data rtd_board) = 0xC
  ∧ field 20 2 (rtd_data rtd_board) = 0
  ∧ field 18 2 (rtd_data rtd_board) = 1
  ∧ field 14 4 (rtd_data rtd_board) = 4
  ∧ field 12 2 (rtd_data rtd_board) = 1.
Proof.
  destruct datasheet_layouts as [Hlt Hlr].
  assert (Ht : (1 ≤ _therm_sense_channel rtd_board ≤ 20)%nat)
    by (cbn; lia).
  assert (Hr : (1 ≤ _rtd_sense_channel rtd_board ≤ 20)%nat) by (cbn; lia).
  destruct (encoders_embed_sense_channel 7 rtd_board []) as [Htherm Hrtd].
  destruct (Htherm Hlt Ht) as (_ & _ & _ & Hfield_t & _ & Hback_t).
  destruct (Hrtd Hlr Hr) as (_ & _ & _ & Hfield_r & _ & Hback_r).
  split; [exact Hlt|]. split; [exact Hlr|].
  split; [exact Ht|]. split; [exact Hr|].
  split; [reflexivity|]. split; [exact Hfield_t|].
  split; [reflexivity|]. split; [exact Hfield_r|].
  split; [apply (Hback_t 0%nat _ 27 5 eq_refl); [lia..|others_clear]|].
  split; [apply (Hback_t 2%nat _ 21 1 eq_refl); [lia..|others_clear]|].
  split; [apply (Hback_t 3%nat _ 19 2 eq_refl); [lia..|others_clear]|].
  split; [apply (Hback_t 4%nat _ 15 4 eq_refl); [lia..|others_clear]|].
  split; [apply (Hback_r 0%nat _ 27 5 eq_refl); [lia..|others_clear]|].
  split; [apply (Hback_r 2%nat _ 20 2 eq_refl); [lia..|others_clear]|].
  split; [apply (Hback_r 3%nat _ 18 2 eq_refl); [lia..|others_clear]|].
  split; [apply (Hback_r 4%nat _ 14 4 eq_refl); [lia..|others_clear]|].
  apply (Hback_r 5%nat _ 12 2 eq_refl); [lia..|others_clear].
Defined.

Lemma Configure_unknown_assignment_witness :
  well_sized miswired_board ∧ (1 ≤ 3 ≤ 20)%nat
  ∧ channel_assignments miswired_board !! 3%nat = Some 9
  ∧ Configure busy_device 3 miswired_board []
    = Done tt miswired_board
        [ transfer_byte 10 2 0xF0 0; transfer_byte 10 2 0xFF 0;
          Serial_println unknown_assignment_message;
          assign_channel 10 5 0xE80FA000; assign_channel 10 7 0xB1560000 ].
Proof.
  assert (Hw : well_sized miswired_board) by concrete.
  assert (Hc : (1 ≤ 3 ≤ 20)%nat) by lia.
  split; [exact Hw|]. split; [exact Hc|]. split; [reflexivity|].
  exact (proj1 (Configure_unknown_assignment busy_device 0 miswired_board []
                  3 9 Hw Hc eq_refl ltac:(discriminate) ltac:(discriminate)
                  ltac:(discriminate) ltac:(discriminate))).
Defined.

Lemma MeasureChannel_frame_witness :
  well_sized board ∧ (1 ≤ 7 ≤ 20)%nat
  ∧ ∃ temp self' tr',
      MeasureChannel ready_device 2 7 board [] = Done temp self' tr'.
Proof.
  assert (Hw : well_sized board) by concrete.
  assert (Hc : (1 ≤ 7 ≤ 20)%nat) by lia.
  split; [exact Hw|]. split; [exact Hc|].
  apply (proj2 (MeasureChannel_frame ready_device 0 7 board [] Hw Hc)).
  by eexists.
Defined.

Lemma MeasureChannel_bounds_witness :
  well_sized board ∧ (20 ≤ 20)%nat ∧ (21 ≤ 21)%nat
  ∧ (∀ tr', MeasureChannel busy_device 2 20 board [] ≠ Fault tr')
  ∧ MeasureChannel busy_device 2 21 board [] = Fault [].
Proof.
  assert (Hw : well_sized board) by concrete.
  split; [exact Hw|]. split; [lia|]. split; [lia|]. split.
  - apply (proj1 (MeasureChannel_bounds busy_device 0 20 board [] Hw)). lia.
  - apply (proj2 (MeasureChannel_bounds busy_device 0 21 board [] Hw)). lia.
Defined.

(** ** The further theorems at the sample boards *)

Lemma Sleep_WakeUp_round_trip_witness :
  well_sized board ∧ _sleeping board = false
  ∧ (Sleep busy_device;; WakeUp busy_device 2) board []
    = Done tt board
        [ transfer_byte 10 2 0 0x97;
          digitalWrite 9 LOW; delay 100; digitalWrite 9 HIGH; delay 200;
          transfer_byte 10 2 0xF0 0; transfer_byte 10 2 0xFF 0;
          assign_channel 10 5 0xE80FA000; assign_channel 10 7 0xB1560000 ].
Proof.
  assert (Hw : well_sized board) by concrete.
  split; [exact Hw|]. split; [reflexivity|].
  exact (Sleep_WakeUp_round_trip busy_device 0 board [] Hw eq_refl).
Defined.

Lemma configuration_assigns_only_declared_witness :
  well_sized asleep_board
  ∧ ∃ configured woken,
      Configure busy_device 3 asleep_board [] = Done tt board configured
      ∧ WakeUp busy_device 2 asleep_board [] = Done tt board woken
      ∧ ∀ cs (c : nat) w,
          assign_channel cs c w ∈ configured
          ∨ assign_channel cs c w ∈ woken →
          (1 ≤ c ≤ 20)%nat ∧ cs = 10
          ∧ ((channel_assignments asleep_board !! c
              = Some SENSE_RESISTOR_1000 ∧ w = sense_resistor_data)
             ∨ (channel_assignments asleep_board !! c
                = Some THERMISTOR_44006
                ∧ w = thermistor_data asleep_board)
             ∨ (channel_assignments asleep_board !! c = Some RTD_PT_100
                ∧ w = rtd_data asleep_board)).
Proof.
  assert (Hw : well_sized asleep_board) by concrete.
  split; [exact Hw|].
  exact (configuration_assigns_only_declared busy_device 0 asleep_board []
           Hw).
Defined.

Lemma channel_zero_measured_not_configured_witness :
  well_sized channel_zero_board
  ∧ measures_temperature channel_zero_board 0
  ∧ (∀ cs w, assign_channel cs 0 w
             ∉ wake_calls channel_zero_board
               ++ configuration_calls channel_zero_board)
  ∧ MeasureChannel ready_device 2 0 channel_zero_board []
    = Done sample_temperature
        (set_channel_temperatures
           (<[0%nat := sample_temperature]>
              (channel_temperatures channel_zero_board))
           channel_zero_board)
        [measure_channel 10 0 1].
Proof.
  assert (Hw : well_sized channel_zero_board) by concrete.
  assert (Hm : measures_temperature channel_zero_board 0) by (by left).
  split; [exact Hw|]. split; [exact Hm|].
  exact (channel_zero_measured_not_configured ready_device 0
           channel_zero_board [] Hw Hm).
Defined.

Lemma CheckStatusReg_FinishedMeasurement_witness :
  COMMAND_STATUS_REGISTER mod 2 ^ 16 = 0
  ∧ ∃ status,
      0 ≤ status < 256
      ∧ CheckStatusReg ready_device board []
        = Done status board ([] ++ [status_read board])
      ∧ FinishedMeasurement ready_device board []
        = Done (Z.testbit status 6) board ([] ++ [status_read board]).
Proof.
  split; [reflexivity|].
  exact (CheckStatusReg_FinishedMeasurement ready_device board [] eq_refl).
Defined.

Lemma StartMeasurement_command_witness :
  0 ≤ CONVERSION_CONTROL_BYTE < 256
  ∧ Z.land CONVERSION_CONTROL_BYTE 31 = 0 ∧ (7 ≤ 31)%nat
  ∧ start_command 7 = 0x87
  ∧ Z.land (start_command 7) 31 = 7.
Proof.
  assert (Hbyte : 0 ≤ CONVERSION_CONTROL_BYTE < 256) by (by compute).
  assert (Hc : (7 ≤ 31)%nat) by lia.
  split; [exact Hbyte|]. split; [reflexivity|]. split; [exact Hc|].
  split; [reflexivity|].
  exact (proj1 (proj2 (StartMeasurement_command busy_device 7 board [])
                  Hbyte eq_refl Hc)).
Defined.

Lemma encoders_type_tag_witness :
  0 ≤ 0x1D < 32 ∧ 0 ≤ 0x16 < 32 ∧ 0 ≤ 0xC < 32
  ∧ Z.shiftr sense_resistor_data 27 = 0x1D
  ∧ Z.land sense_resistor_data (Z.ones 27) = 0xFA000
  ∧ Z.shiftr (thermistor_data rtd_board) 27 = 0x16
  ∧ Z.shiftr (rtd_data rtd_board) 27 = 0xC.
Proof.
  assert (H1D : 0 ≤ 0x1D < 32) by lia.
  assert (H16 : 0 ≤ 0x16 < 32) by lia.
  assert (HC : 0 ≤ 0xC < 32) by lia.
  assert (Hres : 0 ≤ SENSE_RESISTOR_1K < 2 ^ 27) by (by compute).
  assert (Htherm : Forall (λ constant, 0 ≤ constant < 2 ^ 27)
            [ THERMISTOR_DIFFERENTIAL;
              THERMISTOR_EXCITATION_MODE__SHARING_NO_ROTATION;
              THERMISTOR_EXCITATION_CURRENT__AUTORANGE ])
    by (repeat constructor; by compute).
  assert (Hrtd : Forall (λ constant, 0 ≤ constant < 2 ^ 27)
            [ RTD_NUM_WIRES__2_WIRE; RTD_EXCITATION_MODE__NO_ROTATION_SHARING;
              RTD_EXCITATION_CURRENT__50UA; RTD_STANDARD__AMERICAN ])
    by (repeat constructor; by compute).
  assert (Hlsb : 0 ≤ 22) by lia. assert (Hfit : 22 + 5 ≤ 27) by lia.
  assert (Ht : (_therm_sense_channel rtd_board ≤ 31)%nat) by (cbn; lia).
  assert (Hr : (_rtd_sense_channel rtd_board ≤ 31)%nat) by (cbn; lia).
  assert (Es : SENSOR_TYPE__SENSE_RESISTOR = Z.shiftl 0x1D 27)
    by reflexivity.
  assert (Et : SENSOR_TYPE__THERMISTOR_44006_10K_25C = Z.shiftl 0x16 27)
    by reflexivity.
  assert (Er : SENSOR_TYPE__RTD_PT_100 = Z.shiftl 0xC 27) by reflexivity.
  destruct (proj1 (encoders_type_tag rtd_board 0x1D H1D) Es Hres)
    as [Htag Hvalue].
  split; [exact H1D|]. split; [exact H16|]. split; [exact HC|].
  split; [exact Htag|]. split; [exact Hvalue|]. split.
  - exact (proj1 (proj2 (encoders_type_tag rtd_board 0x16 H16))
             Et Htherm Hlsb Hfit Ht).
  - exact (proj2 (proj2 (encoders_type_tag rtd_board 0xC HC))
             Er Hrtd Hlsb Hfit Hr).
Defined.


Lemma MeasureAllChannels_stuck_witness :
  well_sized board
  ∧ filter (measures_temperature board) (seq 1 20) = [7%nat]
  ∧ ∃ self',
      MeasureAllChannels busy_device 2 board []
      = Hang self' [measure_channel 10 7 1].
Proof.
  assert (Hw : well_sized board) by concrete.
  split; [exact Hw|]. split; [reflexivity|].
  destruct (MeasureAllChannels_stuck busy_device 0 board [] 7 [] Hw
              eq_refl eq_refl) as (self' & Hrun & _).
  exists self'. exact Hrun.
Defined.

Lemma methods_keep_wiring_witness :
  well_sized board
  ∧ Forall channel_in_table
      [ call_InitializeAndConfigure; call_Sleep; call_MeasureChannel 7;
        call_MeasureAllChannels; call_StartMeasurement 7;
        call_ReadMeasurementResult 7 ]
  ∧ outcome_keeps_wiring board []
      (invoke_all ready_device 3
         [ call_InitializeAndConfigure; call_Sleep; call_MeasureChannel 7;
           call_MeasureAllChannels; call_StartMeasurement 7;
           call_ReadMeasurementResult 7 ] board []).
Proof.
  assert (Hw : well_sized board) by concrete.
  assert (Hms : Forall channel_in_table
            [ call_InitializeAndConfigure; call_Sleep; call_MeasureChannel 7;
              call_MeasureAllChannels; call_StartMeasurement 7;
              call_ReadMeasurementResult 7 ])
    by (repeat constructor; cbn; lia).
  split; [exact Hw|]. split; [exact Hms|].
  exact (methods_keep_wiring ready_device 0 _ board [] Hw Hms).
Defined.

Lemma non_blocking_methods_frame_witness :
  Forall non_blocking
    [ call_StartMeasurement 7; call_FinishedMeasurement;
      call_ReadMeasurementResult 7; call_InterruptHandler;
      call_CheckStatusReg ]
  ∧ ∃ vs flag added,
      invoke_all ready_device 0
        [ call_StartMeasurement 7; call_FinishedMeasurement;
          call_ReadMeasurementResult 7; call_InterruptHandler;
          call_CheckStatusReg ] asleep_board []
      = Done vs (set_measurement_finished flag asleep_board) ([] ++ added)
      ∧ length vs = 5%nat
      ∧ Forall is_register_access added.
Proof.
  assert (Hms : Forall non_blocking
            [ call_StartMeasurement 7; call_FinishedMeasurement;
              call_ReadMeasurementResult 7; call_InterruptHandler;
              call_CheckStatusReg ])
    by (repeat constructor).
  split; [exact Hms|].
  exact (non_blocking_methods_frame ready_device 0 _ asleep_board [] Hms).
Defined.

Lemma constructor_then_InitializeAndConfigure_witness :
  well_sized raw_storage
  ∧ ∃ self tr',
      (LTC2983Manager_constructor 10 9 5 0;;
       InitializeAndConfigure busy_device 3) raw_storage []
      = Done tt self tr'
      ∧ _chip_select_pin self = 10 ∧ _sleeping self = false.
Proof.
  assert (Hw : well_sized raw_storage) by concrete.
  split; [exact Hw|].
  destruct (constructor_then_InitializeAndConfigure busy_device 0 10 9 5 0
              raw_storage [] Hw) as (self & Hrun & Hcs & Hs & _).
  exists self. eexists. split; [exact Hrun|]. split; [exact Hcs|exact Hs].
Defined.

Lemma WakeUp_unconditional_witness :
  well_sized board
  ∧ WakeUp busy_device 2 board []
    = Done tt board
        [ digitalWrite 9 LOW; delay 100; digitalWrite 9 HIGH; delay 200;
          transfer_byte 10 2 0xF0 0; transfer_byte 10 2 0xFF 0;
          assign_channel 10 5 0xE80FA000; assign_channel 10 7 0xB1560000 ].
Proof.
  assert (Hw : well_sized board) by concrete.
  split; [exact Hw|].
  exact (proj1 (WakeUp_unconditional busy_device 0 board [] Hw)).
Defined.
